(** * news-chatbot: a shallow embedding of [app.py]

    The program is sequential glue around five external services (the
    Google News feed, arbitrary web pages, the chat-completion endpoint,
    the Notion database and the Streamlit session store).  The services are
    gathered in a record [World] of oracles; every call the program makes
    is appended to a trace of events, and Python exceptions are an explicit
    result constructor, so that "does not raise", "performs no archive
    write" and "triggers no network call" are statements about the
    functions below. *)

From Stdlib Require Import String Ascii NArith List Lia DecimalString.
From stdpp Require Import base option list gmap strings.

(** ** Python strings

    A Python [str] is a sequence of Unicode code points; [len] counts code
    points and slicing cuts between them.  The literals of [app.py] are
    mostly Korean, so they are read from their UTF-8 bytes. *)

Module PyStr.

Local Open Scope N_scope.

Definition pystr : Type := list N.

Definition bytes_of (s : string) : list N :=
  List.map N_of_ascii (list_ascii_of_string s).

(** UTF-8 decoding of a well-formed byte sequence (1 to 4 bytes per code
    point); a truncated tail is dropped. *)
Fixpoint utf8_decode (bs : list N) : pystr :=
  match bs with
  | [] => []
  | b :: r =>
    if b <? 128 then b :: utf8_decode r
    else if b <? 224 then
      match r with
      | c1 :: r1 => ((b - 192) * 64 + (c1 - 128)) :: utf8_decode r1
      | _ => []
      end
    else if b <? 240 then
      match r with
      | c1 :: c2 :: r2 =>
        ((b - 224) * 4096 + (c1 - 128) * 64 + (c2 - 128)) :: utf8_decode r2
      | _ => []
      end
    else
      match r with
      | c1 :: c2 :: c3 :: r3 =>
        ((b - 240) * 262144 + (c1 - 128) * 4096 + (c2 - 128) * 64 + (c3 - 128))
          :: utf8_decode r3
      | _ => []
      end
  end.

(** The [str] denoted by a literal of the source file. *)
Definition lit (s : string) : pystr := utf8_decode (bytes_of s).

(** [len(s)] *)
Definition len (s : pystr) : nat := length s.

(** [s[:n]] for a non-negative [n] *)
Definition slice_to (n : nat) (s : pystr) : pystr := take n s.

(** [sep.join(parts)] *)
Fixpoint join (sep : pystr) (parts : list pystr) : pystr :=
  match parts with
  | [] => []
  | [p] => p
  | p :: rest => p ++ sep ++ join sep rest
  end.

(** [str(n)] for a non-negative integer *)
Definition str_of_nat (n : nat) : pystr :=
  bytes_of (NilZero.string_of_uint (Nat.to_uint n)).

(** Truthiness of a [str]: the empty string is false. *)
Definition truthy (s : pystr) : bool :=
  match s with [] => false | _ => true end.

End PyStr.
Import PyStr.

Arguments lit : simpl never.
Arguments len : simpl never.
Arguments slice_to : simpl never.
Arguments join : simpl never.
Arguments str_of_nat : simpl never.

(** ** Data model *)

(** A raised Python exception; [exn_msg] is [str(e)].  Every error the
    external services raise is an instance of [Exception]. *)
Record Exn := { exn_msg : pystr }.

(** Outcome of a Python call: a returned value or a raised exception. *)
Inductive Res (A : Type) : Type :=
| Ok (a : A)
| Raise (e : Exn).
Arguments Ok {A} a.
Arguments Raise {A} e.

(** What the program reads of a [requests.Response]. *)
Record Response := { status_code : Z; text : pystr }.

(** What the program reads of a feed entry: [entry.title], [entry.link],
    [entry.published].  An attribute the feed item does not carry is
    [None]: reading it raises [AttributeError]. *)
Record Entry := {
  entry_title : option pystr;
  entry_link : option pystr;
  entry_published : option pystr
}.

(** The dict built per entry by [fetch_google_news]. *)
Record NewsItem := {
  title : pystr;
  link : pystr;
  pubDate : pystr;
  content : pystr
}.

(** Everything observable the program does, in the order it happens. *)
Inductive Event : Type :=
| EvHead (url : pystr)                      (* requests.head *)
| EvGet (url user_agent : pystr)            (* requests.get *)
| EvFeed (url : pystr)                      (* feedparser.parse *)
| EvChat (model system user : pystr)        (* chat.completions.create *)
| EvNotion (query summary date : pystr) (lnk : option pystr)
                                            (* notion.pages.create *)
| EvPrint (s : pystr)                       (* print *)
| EvRender (s : pystr)                      (* st.title/markdown/info/error *)
| EvSleep (seconds : nat)                   (* time.sleep *)
| EvThreadStart.                            (* Thread(target=start_scheduler).start() *)

(** The calls that leave the process. *)
Definition is_network (e : Event) : bool :=
  match e with
  | EvHead _ | EvGet _ _ | EvFeed _ | EvChat _ _ _ | EvNotion _ _ _ _ => true
  | EvPrint _ | EvRender _ | EvSleep _ | EvThreadStart => false
  end.

Definition is_chat (e : Event) : bool :=
  match e with EvChat _ _ _ => true | _ => false end.

Definition is_notion (e : Event) : bool :=
  match e with EvNotion _ _ _ _ => true | _ => false end.

Definition network_calls (t : list Event) : nat := length (List.filter is_network t).
Definition chat_calls (t : list Event) : nat := length (List.filter is_chat t).
Definition notion_calls (t : list Event) : nat := length (List.filter is_notion t).

Definition is_thread_start (e : Event) : bool :=
  match e with EvThreadStart => true | _ => false end.

(** How many scheduler threads the process has started so far. *)
Definition threads_started (t : list Event) : nat :=
  length (List.filter is_thread_start t).

(** One entry of [st.session_state.messages]. *)
Record ChatMessage := { role : pystr; message : pystr }.

(** Values kept in [st.session_state]. *)
Inductive SVal : Type :=
| VBool (b : bool)
| VMessages (ms : list ChatMessage).

(** The process: what has happened so far, and Streamlit's session store.
    [st.session_state] is one dict per browser session; the script is run
    again from its first line for every session and every interaction. *)
Record Process := {
  trace : list Event;
  session_state : gmap nat (gmap string SVal)
}.

Definition initial_process : Process := {| trace := []; session_state := ∅ |}.

(** The environment variables read by [os.getenv] at start-up. *)
Record Config := {
  openai_api_key : option pystr;
  notion_api_key : option pystr;
  notion_db_id : option pystr
}.

(** The external collaborators.  An answer may depend on everything that
    happened before the call (the trace so far), so one URL can answer
    differently at different times. *)
Record World := {
  config : Config;
  requests_head : list Event -> pystr -> Res pystr;       (* [res.url] *)
  requests_get : list Event -> pystr -> Res Response;
  soup_find_all_p : pystr -> Res (list pystr);
    (* BeautifulSoup(text, 'html.parser'), find_all('p'), get_text() of each *)
  urllib_quote : pystr -> Res pystr;
    (* urllib.parse.quote: raises UnicodeEncodeError on a lone surrogate *)
  feedparser_entries : list Event -> pystr -> Res (list Entry);
    (* [feedparser.parse(url).entries], or what the parse raised *)
  chat_completion : list Event -> pystr -> pystr -> Res pystr;
    (* [response.choices[0].message.content] *)
  notion_pages_create :
    list Event -> pystr -> pystr -> pystr -> option pystr -> Res unit;
  datetime_now_isoformat : list Event -> pystr;
  job_pending : list Event -> bool
    (* whether the job registered by every().day.at("09:00") is due *)
}.

(** ** The effect monad: a trace of events and exceptions *)

Definition M (A : Type) : Type := list Event -> Res A * list Event.

Definition ret {A} (a : A) : M A := fun t => (Ok a, t).

Definition bind {A B} (m : M A) (k : A -> M B) : M B :=
  fun t =>
    match m t with
    | (Ok a, t') => k a t'
    | (Raise e, t') => (Raise e, t')
    end.

(** [try: m  except Exception as e: h e] *)
Definition try_except {A} (m : M A) (h : Exn -> M A) : M A :=
  fun t =>
    match m t with
    | (Ok a, t') => (Ok a, t')
    | (Raise e, t') => h e t'
    end.

(** A call to the outside: the event is logged, the oracle answers. *)
Definition call {A} (ev : Event) (answer : list Event -> Res A) : M A :=
  fun t => (answer t, t ++ [ev]).

Definition emit (ev : Event) : M unit :=
  fun t => (Ok tt, t ++ [ev]).

(** Reading something of the outside at this moment: no request is made. *)
Definition ask {A} (answer : list Event -> A) : M A :=
  fun t => (Ok (answer t), t).

(** A library computation that touches nothing outside but may raise. *)
Definition eval {A} (r : Res A) : M A := fun t => (r, t).

(** [emits P m]: whatever [m] does, it only appends events, and every
    event it appends satisfies [P]. *)
Definition emits {A} (P : Event -> Prop) (m : M A) : Prop :=
  forall t, exists new, (m t).2 = t ++ new /\ Forall P new.

(** The events of a fetch: HEAD, GET and the feed request. *)
Definition fetch_event (e : Event) : Prop :=
  match e with
  | EvHead _ | EvGet _ _ | EvFeed _ => True
  | _ => False
  end.

(** Everything but the start of a scheduler thread. *)
Definition no_thread_start (e : Event) : Prop := is_thread_start e = false.

(** Events that stay inside the process. *)
Definition local_event (e : Event) : Prop := is_network e = false.

(** stdpp's monad notations: [x ← m; k] and [m;; k]. *)
#[global] Instance M_ret : MRet M := @ret.
#[global] Instance M_bind : MBind M := fun A B k m => bind m k.

(** ** Literals of [app.py] *)

Definition nl : pystr := [10%N].   (* the escape \n *)

Definition MODEL_NAME : pystr := lit "gpt-5-nano".

Definition USER_AGENT : pystr :=
  lit "Mozilla/5.0 (Windows NT 10.0; Win64; x64) AppleWebKit/537.36 (KHTML, like Gecko) Chrome/91.0.4472.124 Safari/537.36".

Definition ACCESS_RESTRICTED : pystr := lit "본문 수집 실패 (접근 제한)".
Definition NO_CONTENT : pystr := lit "본문 수집 실패 (내용 없음)".
Definition CRAWL_ERROR : pystr := lit "크롤링 오류: ".

Definition GREETINGS : list pystr := [lit "안녕"; lit "반가워"].
Definition GREETING_REPLY : pystr := lit "안녕하세요! 무엇을 도와드릴까요?".
Definition READING : pystr :=
  lit "🕵️ 기사 본문을 읽고 요약 중입니다... (시간이 조금 걸려요)".
Definition NOT_FOUND : pystr :=
  lit "관련 기사를 찾지 못했거나 접근이 제한되었습니다.".

Definition TARGET_KEYWORD : pystr := lit "최신 AI 기술".
Definition JOB_START : pystr := lit "⏰ 자동 수집 시작...".
Definition JOB_DONE : pystr := lit "✅ 자동 수집 완료".

(** ** Core functions *)

(** Line 76: the feed URL for an encoded keyword. *)
Definition rss_url_of (encoded_keyword : pystr) : pystr :=
  lit "https://news.google.com/rss/search?q=" ++ encoded_keyword
    ++ lit "&hl=ko&gl=KR&ceid=KR:ko".

(** [AttributeError] as feedparser raises it for a missing attribute. *)
Definition attribute_error (name : pystr) : Exn :=
  {| exn_msg := lit "object has no attribute '" ++ name ++ lit "'" |}.

(** Reading an attribute of a feed entry. *)
Definition getattr (name : pystr) (value : option pystr) : M pystr :=
  eval (match value with
        | Some v => Ok v
        | None => Raise (attribute_error name)
        end).

Section Program.

Variable w : World.

(** [get_real_url], lines 41-47.  The bare [except:] catches everything. *)
Definition get_real_url (rss_link : pystr) : M pystr :=
  try_except
    (call (EvHead rss_link) (fun t => requests_head w t rss_link))
    (fun _ => mret rss_link).

(** [crawl_article], lines 49-71. *)
Definition crawl_article (url : pystr) : M pystr :=
  try_except
    (response ← call (EvGet url USER_AGENT) (fun t => requests_get w t url);
     if negb (status_code response =? 200)%Z then mret ACCESS_RESTRICTED
     else
       paragraphs ← eval (soup_find_all_p w (text response));
       let content := join (lit " ") paragraphs in
       if (len content <? 50)%nat then mret NO_CONTENT
       else mret (slice_to 3000 content))
    (fun e => mret (CRAWL_ERROR ++ exn_msg e)).

(** The loop of lines 81-90 over [feed.entries[:2]].  Nothing here is
    inside a [try]: the attribute reads raise where the entry lacks the
    attribute, in the order Python evaluates them ([entry.link] before the
    HEAD request; [entry.title] and [entry.published] after the scrape, when
    the dict is built). *)
Fixpoint collect_entries (entries : list Entry) (news_items : list NewsItem)
  : M (list NewsItem) :=
  match entries with
  | [] => mret news_items
  | entry :: rest =>
    rss_link ← getattr (lit "link") (entry_link entry);
    real_url ← get_real_url rss_link;
    content ← crawl_article real_url;
    title_read ← getattr (lit "title") (entry_title entry);
    published_read ← getattr (lit "published") (entry_published entry);
    collect_entries rest
      (news_items ++ [ {| title := title_read;
                          link := real_url;
                          pubDate := published_read;
                          content := content |} ])
  end.

(** [fetch_google_news], lines 73-91.  Neither [quote] nor the feed parse
    is inside a [try]. *)
Definition fetch_google_news (keyword : pystr) : M (list NewsItem) :=
  encoded_keyword ← eval (urllib_quote w keyword);
  let rss_url := rss_url_of encoded_keyword in
  entries ← call (EvFeed rss_url) (fun t => feedparser_entries w t rss_url);
  collect_entries (take 2 entries) [].

(** The prompt body built by the loop of lines 96-97, [idx] counting from
    its first argument. *)
Fixpoint build_prompt (idx : nat) (news_data : list NewsItem) (prompt_text : pystr)
  : pystr :=
  match news_data with
  | [] => prompt_text
  | item :: rest =>
    build_prompt (S idx) rest
      (prompt_text ++ nl ++ lit "[기사 " ++ str_of_nat idx ++ lit ": "
         ++ title item ++ lit "]" ++ nl ++ lit "본문내용: " ++ content item ++ nl)
  end.

Definition system_prompt_of (query : pystr) : pystr :=
  lit "사용자가 '" ++ query
    ++ lit "'에 대해 검색했어. 위 기사들의 '본문내용'을 바탕으로 핵심 정보를 종합해서 3줄로 깔끔하게 요약해줘.".

(** [summarize_news], lines 93-108: no [try] around the model call. *)
Definition summarize_news (news_data : list NewsItem) (query : pystr) : M pystr :=
  let prompt_text := build_prompt 1 news_data [] in
  let system_prompt := system_prompt_of query in
  call (EvChat MODEL_NAME system_prompt prompt_text)
       (fun t => chat_completion w t system_prompt prompt_text).

(** [save_to_notion], lines 110-126.  [lnk] is the optional third argument;
    [link if link else None] turns an empty link into [None]. *)
Definition save_to_notion (query summary : pystr) (lnk : option pystr) : M bool :=
  try_except
    (let url := match lnk with
                | Some l => if truthy l then Some l else None
                | None => None
                end in
     date ← ask (datetime_now_isoformat w);
     call (EvNotion query summary date url)
          (fun t => notion_pages_create w t query summary date url);;
     emit (EvPrint (lit "[Log] Notion saved: " ++ query));;
     mret true)
    (fun e =>
       emit (EvPrint (lit "[Error] Notion save failed: " ++ exn_msg e));;
       mret false).

(** [items[0]['link']] of a list known to be non-empty. *)
Definition first_link (items : list NewsItem) : pystr :=
  match items with
  | item :: _ => link item
  | [] => []
  end.

(** Truthiness of a list: [if items:]. *)
Definition nonempty {A} (l : list A) : bool :=
  match l with [] => false | _ => true end.

(** [scheduled_job], lines 130-138. *)
Definition scheduled_job : M unit :=
  emit (EvPrint JOB_START);;
  let target_keyword := TARGET_KEYWORD in
  items ← fetch_google_news target_keyword;
  (if nonempty items then
     summary ← summarize_news items target_keyword;
     save_to_notion (lit "[자동] " ++ target_keyword) summary
                    (Some (first_link items));;
     mret tt
   else mret tt);;
  emit (EvPrint JOB_DONE).

(** [schedule.run_pending()] with the one job registered at line 143: the
    job runs when it is due; what it raises is not caught. *)
Definition run_pending : M unit :=
  fun t => if job_pending w t then scheduled_job t else (Ok tt, t).

(** [start_scheduler], lines 140-147: the first [n] rounds of the
    [while True] loop.  A raise leaves the loop, and the thread with it. *)
Fixpoint start_scheduler (n : nat) : M unit :=
  match n with
  | O => mret tt
  | S k => run_pending;; emit (EvSleep 1);; start_scheduler k
  end.

(** The sources list appended by lines 191-192. *)
Fixpoint append_sources (items : list NewsItem) (full_response : pystr) : pystr :=
  match items with
  | [] => full_response
  | item :: rest =>
    append_sources rest
      (full_response ++ nl ++ lit "- [" ++ title item ++ lit "](" ++ link item
         ++ lit ")")
  end.

(** Line 190: the summary under its heading. *)
Definition response_head (prompt summary : pystr) : pystr :=
  lit "**['" ++ prompt ++ lit "' 심층 요약]**" ++ nl ++ nl ++ summary
    ++ nl ++ nl ++ lit "**출처:**".

(** The assistant turn, lines 179-194: computes [full_response]. *)
Definition respond (prompt : pystr) : M pystr :=
  if decide (prompt ∈ GREETINGS) then mret GREETING_REPLY
  else
    emit (EvRender READING);;
    items ← fetch_google_news prompt;
    if nonempty items then
      summary ← summarize_news items prompt;
      save_to_notion prompt summary (Some (first_link items));;
      mret (append_sources items (response_head prompt summary))
    else mret NOT_FOUND.

(** [not value] for the result of [os.getenv]. *)
Definition unset (value : option pystr) : bool :=
  match value with
  | Some v => negb (truthy v)
  | None => true
  end.

Definition messages_of (ss : gmap string SVal) : list ChatMessage :=
  match ss !! "messages" with
  | Some (VMessages ms) => ms
  | _ => []
  end.

Definition PAGE : list Event :=
  [ EvRender (lit "📰 AI 뉴스 봇 (크롤링 & 자동화)");
    EvRender (lit "설정 및 정보");
    EvRender (lit "[👉 Notion 바로가기](https://www.notion.so)");
    EvRender (lit "오전 9시마다 '최신 AI 기술' 뉴스를 자동으로 수집합니다.") ].

(** One run of the script for browser session [sid]; [chat_input] is what
    [st.chat_input] returns in this run.  An exception that leaves the
    script ends the run; the session store keeps what was written. *)
Definition script_run (sid : nat) (chat_input : option pystr) (p : Process)
  : Res unit * Process :=
  let cfg := config w in
  (* lines 23-29: st.error, st.stop *)
  if unset (openai_api_key cfg) then
    (Ok tt, {| trace := trace p ++ [EvRender (lit "⛔ OpenAI API 키가 없습니다.")];
               session_state := session_state p |})
  else if unset (notion_api_key cfg) || unset (notion_db_id cfg) then
    (Ok tt, {| trace := trace p ++ [EvRender (lit "⛔ Notion 설정이 누락되었습니다.")];
               session_state := session_state p |})
  else
    let ss0 := default ∅ (session_state p !! sid) in
    (* lines 150-153 *)
    let '(ss1, t1) :=
      match ss0 !! "scheduler_started" with
      | None => (<["scheduler_started" := VBool true]> ss0,
                 trace p ++ [EvThreadStart])
      | Some _ => (ss0, trace p)
      end in
    (* lines 157-162 *)
    let t2 := t1 ++ PAGE in
    (* lines 164-165 *)
    let ss2 :=
      match ss1 !! "messages" with
      | None => <["messages" := VMessages []]> ss1
      | Some _ => ss1
      end in
    (* lines 167-169 *)
    let t3 := t2 ++ List.map (fun m => EvRender (message m)) (messages_of ss2) in
    let idle := (Ok tt, {| trace := t3;
                           session_state := <[sid := ss2]> (session_state p) |}) in
    (* lines 171-197 *)
    match chat_input with
    | Some prompt =>
      if truthy prompt then
        let ss3 :=
          <["messages" := VMessages (messages_of ss2 ++
                            [ {| role := lit "user"; message := prompt |} ])]> ss2 in
        let t4 := t3 ++ [EvRender prompt] in
        match respond prompt t4 with
        | (Ok full_response, t5) =>
          let ss4 :=
            <["messages" := VMessages (messages_of ss3 ++
                              [ {| role := lit "assistant";
                                   message := full_response |} ])]> ss3 in
          (Ok tt, {| trace := t5 ++ [EvRender full_response];
                     session_state := <[sid := ss4]> (session_state p) |})
        | (Raise e, t5) =>
          (Raise e, {| trace := t5;
                       session_state := <[sid := ss3]> (session_state p) |})
        end
      else idle
    | None => idle
    end.

(** A sequence of script runs, oldest first; a run that raised shows an
    error page and the process goes on. *)
Fixpoint script_runs (runs : list (nat * option pystr)) (p : Process) : Process :=
  match runs with
  | [] => p
  | (sid, chat_input) :: rest => script_runs rest (script_run sid chat_input p).2
  end.

End Program.

Arguments get_real_url : simpl never.
Arguments crawl_article : simpl never.
Arguments fetch_google_news : simpl never.
Arguments summarize_news : simpl never.
Arguments save_to_notion : simpl never.
Arguments scheduled_job : simpl never.
Arguments respond : simpl never.
Arguments script_run : simpl never.

(** ** Vocabulary of the statements *)

(** What [link if link else None] stores for the optional argument. *)
Definition stored_link (lnk : option pystr) : option pystr :=
  match lnk with
  | Some l => if truthy l then Some l else None
  | None => None
  end.

(** The line [save_to_notion] prints for an answer of the store. *)
Definition notion_log_line (query : pystr) (answer : Res unit) : pystr :=
  match answer with
  | Ok _ => lit "[Log] Notion saved: " ++ query
  | Raise e => lit "[Error] Notion save failed: " ++ exn_msg e
  end.

(** One source line of the reply (line 192). *)
Definition source_line (item : NewsItem) : pystr :=
  nl ++ lit "- [" ++ title item ++ lit "](" ++ link item ++ lit ")".

(** One article block of the prompt (line 97). *)
Definition article_block (idx : nat) (item : NewsItem) : pystr :=
  nl ++ lit "[기사 " ++ str_of_nat idx ++ lit ": " ++ title item ++ lit "]"
     ++ nl ++ lit "본문내용: " ++ content item ++ nl.

(** How an item of the fetch result relates to the feed entry it was built
    from, in world [w]. *)
Definition built_from (w : World) (entry : Entry) (item : NewsItem) : Prop :=
  entry_title entry = Some (title item)
  /\ entry_published entry = Some (pubDate item)
  /\ (exists rss_link,
        entry_link entry = Some rss_link
        /\ (link item = rss_link
            \/ exists t0, requests_head w t0 rss_link = Ok (link item)))
  /\ exists t0, (crawl_article w (link item) t0).1 = Ok (content item).

(** An entry that carries the three attributes the loop reads. *)
Definition complete (entry : Entry) : Prop :=
  is_Some (entry_link entry) /\ is_Some (entry_title entry)
  /\ is_Some (entry_published entry).

(** The two conditions under which the script goes past line 29. *)
Definition configured (w : World) : Prop :=
  unset (openai_api_key (config w)) = false
  /\ unset (notion_api_key (config w)) || unset (notion_db_id (config w)) = false.

(** The chat history of session [sid]. *)
Definition history (p : Process) (sid : nat) : list ChatMessage :=
  messages_of (default ∅ (session_state p !! sid)).

(** ** Example worlds *)

Module Examples.

Definition timed_out : Exn := {| exn_msg := lit "Connection timed out" |}.

Definition long_text : pystr := List.repeat 97%N 3500.

(** Pages by URL: a short page, a missing page, and long pages elsewhere. *)
Definition page_of (url : pystr) : Res Response :=
  if decide (url = lit "https://news.example/short") then
    Ok {| status_code := 200; text := lit "too short" |}
  else if decide (url = lit "https://news.example/gone") then
    Ok {| status_code := 404; text := lit "not found" |}
  else Ok {| status_code := 200; text := long_text |}.

Definition entry (n : nat) : Entry :=
  {| entry_title := Some (lit "headline " ++ str_of_nat n);
     entry_link := Some (lit "https://news.example/rss/" ++ str_of_nat n);
     entry_published := Some (lit "Mon, 02 Nov 2026 09:00:00 GMT") |}.

(** An entry without a publication date. *)
Definition undated_entry : Entry :=
  {| entry_title := Some (lit "undated headline");
     entry_link := Some (lit "https://news.example/rss/undated");
     entry_published := None |}.

Definition is_surrogate (c : N) : bool := (55296 <=? c)%N && (c <=? 57343)%N.

(** [quote] leaves these keywords as they are, and refuses a surrogate. *)
Definition quote (keyword : pystr) : Res pystr :=
  if existsb is_surrogate keyword then
    Raise {| exn_msg := lit "'utf-8' codec can't encode character: surrogates not allowed" |}
  else Ok keyword.

(** A world that is reachable or not, with a given feed and model answer;
    a page's text is taken as its single paragraph. *)
Definition example_world (online : bool) (entries : list Entry)
    (model : Res pystr) : World :=
  {| config := {| openai_api_key := Some (lit "sk-test");
                  notion_api_key := Some (lit "secret-test");
                  notion_db_id := Some (lit "db-test") |};
     requests_head := fun _ url =>
       if online then Ok (url ++ lit "/final") else Raise timed_out;
     requests_get := fun _ url =>
       if online then page_of url else Raise timed_out;
     soup_find_all_p := fun html => Ok [html];
     urllib_quote := quote;
     feedparser_entries := fun _ _ => Ok entries;
     chat_completion := fun _ _ _ => model;
     notion_pages_create := fun _ _ _ _ _ =>
       if online then Ok tt else Raise timed_out;
     datetime_now_isoformat := fun _ => lit "2026-11-04T09:00:00";
     job_pending := fun _ => true |}.

Definition online_world : World :=
  example_world true [entry 1; entry 2; entry 3] (Ok (lit "three line summary")).

Definition offline_world : World :=
  example_world false [] (Raise timed_out).

Definition model_down_world : World :=
  example_world true [entry 1; entry 2; entry 3] (Raise timed_out).

(** A scheme-less URL of 3000 characters; [requests] refuses it with a
    message that quotes the URL twice. *)
Definition long_url : pystr := List.repeat 97%N 3000.

Definition missing_schema (url : pystr) : Exn :=
  {| exn_msg := lit "Invalid URL '" ++ url
                  ++ lit "': No scheme supplied. Perhaps you meant https://"
                  ++ url ++ lit "?" |}.

Definition long_link_world : World :=
  {| config := config online_world;
     requests_head := fun _ url => Raise (missing_schema url);
     requests_get := fun _ url => Raise (missing_schema url);
     soup_find_all_p := fun html => Ok [html];
     urllib_quote := quote;
     feedparser_entries := fun _ _ =>
       Ok [ {| entry_title := Some (lit "headline");
               entry_link := Some long_url;
               entry_published := Some (lit "Mon, 02 Nov 2026 09:00:00 GMT") |} ];
     chat_completion := fun _ _ _ => Ok (lit "summary");
     notion_pages_create := fun _ _ _ _ _ => Ok tt;
     datetime_now_isoformat := fun _ => lit "2026-11-04T09:00:00";
     job_pending := fun _ => true |}.

(** The online world with a feed whose second entry has no date. *)
Definition undated_world : World :=
  example_world true [entry 1; undated_entry; entry 3]
    (Ok (lit "three line summary")).

(** The online world on a day when the job is never due. *)
Definition idle_world : World :=
  {| config := config online_world;
     requests_head := requests_head online_world;
     requests_get := requests_get online_world;
     soup_find_all_p := soup_find_all_p online_world;
     urllib_quote := urllib_quote online_world;
     feedparser_entries := feedparser_entries online_world;
     chat_completion := chat_completion online_world;
     notion_pages_create := notion_pages_create online_world;
     datetime_now_isoformat := datetime_now_isoformat online_world;
     job_pending := fun _ => false |}.

(** The online world started without [OPENAI_API_KEY]. *)
Definition unconfigured_world : World :=
  {| config := {| openai_api_key := None;
                  notion_api_key := Some (lit "secret-test");
                  notion_db_id := Some (lit "db-test") |};
     requests_head := requests_head online_world;
     requests_get := requests_get online_world;
     soup_find_all_p := soup_find_all_p online_world;
     urllib_quote := urllib_quote online_world;
     feedparser_entries := feedparser_entries online_world;
     chat_completion := chat_completion online_world;
     notion_pages_create := notion_pages_create online_world;
     datetime_now_isoformat := datetime_now_isoformat online_world;
     job_pending := job_pending online_world |}.

(** The online world with an archive that refuses every write. *)
Definition archive_down_world : World :=
  {| config := config online_world;
     requests_head := requests_head online_world;
     requests_get := requests_get online_world;
     soup_find_all_p := soup_find_all_p online_world;
     urllib_quote := urllib_quote online_world;
     feedparser_entries := feedparser_entries online_world;
     chat_completion := chat_completion online_world;
     notion_pages_create := fun _ _ _ _ _ => Raise timed_out;
     datetime_now_isoformat := datetime_now_isoformat online_world;
     job_pending := job_pending online_world |}.

End Examples.

(** ** Reading literals *)

Example lit_korean : lit "안녕" = [50504; 45397]%N.
Proof. reflexivity. Qed.

Example lit_emoji : lit "⏰ a" = [9200; 32; 97]%N.
Proof. reflexivity. Qed.

Example lit_emoji4 : lit "📰" = [128240]%N.
Proof. reflexivity. Qed.

Example join_space : join (lit " ") [lit "ab"; lit "c"; lit ""] = lit "ab c ".
Proof. reflexivity. Qed.

Example str_of_nat_12 : str_of_nat 12 = lit "12".
Proof. reflexivity. Qed.

(** ** Unfolding the monad *)

Ltac run :=
  cbv beta iota zeta
      delta [mbind M_bind bind mret M_ret ret try_except call emit ask eval
             getattr fst snd].

(** Like [run], keeping projections folded. *)
Ltac steps :=
  cbv beta iota zeta
      delta [mbind M_bind bind mret M_ret ret try_except call emit ask eval
             getattr].

Tactic Notation "run" "in" hyp(H) :=
  cbv beta iota zeta
      delta [mbind M_bind bind mret M_ret ret try_except call emit ask eval
             getattr fst snd] in H.

(** ** Redirect resolver *)

(** [get_real_url] always returns, after exactly one HEAD request. *)
Lemma get_real_url_total (w : World) (rss_link : pystr) (t : list Event) :
  ∃ url, get_real_url w rss_link t = (Ok url, t ++ [EvHead rss_link]).
Proof.
  unfold get_real_url. run.
  destruct (requests_head w t rss_link) as [u|e]; eauto.
Qed.

(** C7: when the HEAD request of the redirect resolver raises, whatever the
    error, [get_real_url] returns its argument unchanged (it does not
    raise); the only thing it did is that one request. *)
Theorem get_real_url_failure_returns_input
    (w : World) (rss_link : pystr) (t : list Event) (e : Exn) :
  requests_head w t rss_link = Raise e →
  get_real_url w rss_link t = (Ok rss_link, t ++ [EvHead rss_link]).
Proof.
  intros Hfail. unfold get_real_url. run. by rewrite Hfail.
Qed.

Lemma get_real_url_failure_returns_input_witness :
  get_real_url Examples.offline_world (lit "https://news.example/rss/1") []
  = (Ok (lit "https://news.example/rss/1"),
     [EvHead (lit "https://news.example/rss/1")]).
Proof.
  apply (get_real_url_failure_returns_input Examples.offline_world
           (lit "https://news.example/rss/1") [] Examples.timed_out).
  reflexivity.
Defined.

(** ** Article scraper *)

(** [crawl_article] always returns a string, after exactly one GET. *)
Lemma crawl_article_total (w : World) (url : pystr) (t : list Event) :
  ∃ s, crawl_article w url t = (Ok s, t ++ [EvGet url USER_AGENT]).
Proof.
  unfold crawl_article. run.
  destruct (requests_get w t url) as [r|e]; [|eauto].
  destruct (negb _); [eauto|]. run.
  destruct (soup_find_all_p w (text r)) as [ps|e]; [|eauto].
  destruct (_ <? _)%nat; eauto.
Qed.

(** C4: given a response to the GET.  If its status is not 200, the scraper
    returns the "access restricted" marker.  If its status is 200 and the
    paragraph texts joined by single spaces are shorter than 50 characters,
    it returns the "no content" marker. *)
Theorem crawl_article_failure_markers
    (w : World) (url : pystr) (t : list Event) (r : Response) :
  requests_get w t url = Ok r →
  (status_code r ≠ 200%Z →
     crawl_article w url t = (Ok ACCESS_RESTRICTED, t ++ [EvGet url USER_AGENT]))
  ∧ (status_code r = 200%Z →
     ∀ paragraphs,
       soup_find_all_p w (text r) = Ok paragraphs →
       len (join (lit " ") paragraphs) < 50 →
       crawl_article w url t = (Ok NO_CONTENT, t ++ [EvGet url USER_AGENT])).
Proof.
  intros Hget. unfold crawl_article. run. rewrite Hget. split.
  - intros Hstatus. apply Z.eqb_neq in Hstatus. by rewrite Hstatus.
  - intros Hstatus ps Hps Hshort. apply Z.eqb_eq in Hstatus. rewrite Hstatus.
    run. rewrite Hps. apply Nat.ltb_lt in Hshort. by rewrite Hshort.
Qed.

Lemma crawl_article_failure_markers_witness :
  crawl_article Examples.online_world (lit "https://news.example/gone") []
    = (Ok ACCESS_RESTRICTED,
       [] ++ [EvGet (lit "https://news.example/gone") USER_AGENT])
  ∧ crawl_article Examples.online_world (lit "https://news.example/short") []
    = (Ok NO_CONTENT,
       [] ++ [EvGet (lit "https://news.example/short") USER_AGENT]).
Proof.
  split.
  - refine (proj1 (crawl_article_failure_markers Examples.online_world
                     (lit "https://news.example/gone") []
                     {| status_code := 404; text := lit "not found" |} _) _).
    + vm_compute. reflexivity.
    + simpl. lia.
  - refine (proj2 (crawl_article_failure_markers Examples.online_world
                     (lit "https://news.example/short") []
                     {| status_code := 200; text := lit "too short" |} _)
                  _ [lit "too short"] _ _).
    + vm_compute. reflexivity.
    + reflexivity.
    + reflexivity.
    + vm_compute. lia.
Defined.

(** Unless the GET or the parser raised, the scraper's result has at most
    3000 characters. *)
Lemma crawl_article_bounded_without_exception
    (w : World) (url : pystr) (t : list Event) (r : Response) (s : pystr) :
  requests_get w t url = Ok r →
  (status_code r ≠ 200%Z ∨ ∃ ps, soup_find_all_p w (text r) = Ok ps) →
  (crawl_article w url t).1 = Ok s →
  len s ≤ 3000.
Proof.
  intros Hget Hparse. unfold crawl_article. run. rewrite Hget.
  destruct (negb _) eqn:Hst; simpl.
  - intros [= <-]. vm_compute. lia.
  - destruct Hparse as [Hne|[ps Hps]].
    + apply Z.eqb_neq in Hne. rewrite Hne in Hst. discriminate.
    + run. rewrite Hps. destruct (_ <? _)%nat; simpl; intros [= <-].
      * vm_compute. lia.
      * unfold slice_to, len. rewrite length_take. lia.
Qed.

(** ** What a computation may append to the trace *)

Section Emits.

Context {A B : Type} (P : Event → Prop).

Lemma emits_ret (a : A) : emits P (mret a).
Proof. intros t. exists []. by rewrite app_nil_r. Qed.

Lemma emits_eval (r : Res A) : emits P (eval r).
Proof. intros t. exists []. by rewrite app_nil_r. Qed.

Lemma emits_ask (answer : list Event → A) : emits P (ask answer).
Proof. intros t. exists []. by rewrite app_nil_r. Qed.

Lemma emits_call (ev : Event) (answer : list Event → Res A) :
  P ev → emits P (call ev answer).
Proof. intros Hev t. exists [ev]. split; [done | by constructor]. Qed.

Lemma emits_emit (ev : Event) : P ev → emits P (emit ev).
Proof. intros Hev t. exists [ev]. split; [done | by constructor]. Qed.

Lemma emits_bind (m : M A) (k : A → M B) :
  emits P m → (∀ a, emits P (k a)) → emits P (m ≫= k).
Proof.
  intros Hm Hk t. unfold mbind, M_bind, bind.
  destruct (Hm t) as (n1 & E1 & F1).
  destruct (m t) as [[a|e] t1]; simpl in E1; subst t1.
  - destruct (Hk a (t ++ n1)) as (n2 & E2 & F2).
    exists (n1 ++ n2). rewrite E2, app_assoc. split; [done | by apply Forall_app_2].
  - by exists n1.
Qed.

Lemma emits_try (m : M A) (h : Exn → M A) :
  emits P m → (∀ e, emits P (h e)) → emits P (try_except m h).
Proof.
  intros Hm Hh t. unfold try_except.
  destruct (Hm t) as (n1 & E1 & F1).
  destruct (m t) as [[a|e] t1]; simpl in E1; subst t1.
  - by exists n1.
  - destruct (Hh e (t ++ n1)) as (n2 & E2 & F2).
    exists (n1 ++ n2). rewrite E2, app_assoc. split; [done | by apply Forall_app_2].
Qed.

End Emits.

Lemma emits_weaken {A} (P Q : Event → Prop) (m : M A) :
  (∀ e, P e → Q e) → emits P m → emits Q m.
Proof.
  intros HPQ Hm t. destruct (Hm t) as (new & E & F).
  exists new. split; [done | by eapply Forall_impl].
Qed.

(** Events that no [f] counts leave the count of [f] unchanged. *)
Lemma count_app_none (f : Event → bool) (t new : list Event) :
  Forall (λ e, f e = false) new →
  length (List.filter f (t ++ new)) = length (List.filter f t).
Proof.
  intros Hnew. rewrite List.filter_app, length_app.
  induction Hnew as [|e new He _ IH]; simpl; [lia|]. by rewrite He.
Qed.

Lemma get_real_url_emits (w : World) (rss_link : pystr) :
  emits fetch_event (get_real_url w rss_link).
Proof.
  apply emits_try; [by apply emits_call | intros; apply emits_ret].
Qed.

Lemma crawl_article_emits (w : World) (url : pystr) :
  emits fetch_event (crawl_article w url).
Proof.
  apply emits_try; [|intros; apply emits_ret].
  apply emits_bind; [by apply emits_call|]. intros r.
  destruct (negb _); [apply emits_ret|].
  apply emits_bind; [apply emits_eval|]. intros ps. simpl.
  destruct (_ <? _)%nat; apply emits_ret.
Qed.

Lemma collect_entries_emits (w : World) (entries : list Entry) :
  ∀ news_items, emits fetch_event (collect_entries w entries news_items).
Proof.
  induction entries as [|entry rest IH]; intros acc; cbn [collect_entries].
  - apply emits_ret.
  - apply emits_bind; [apply emits_eval|]. intros rss_link.
    apply emits_bind; [apply get_real_url_emits|]. intros real_url.
    apply emits_bind; [apply crawl_article_emits|]. intros c.
    apply emits_bind; [apply emits_eval|]. intros title_read.
    apply emits_bind; [apply emits_eval|]. intros published_read. apply IH.
Qed.

Lemma fetch_google_news_emits (w : World) (keyword : pystr) :
  emits fetch_event (fetch_google_news w keyword).
Proof.
  unfold fetch_google_news. apply emits_bind; [apply emits_eval|].
  intros encoded. apply emits_bind; [by apply emits_call|].
  intros entries. apply collect_entries_emits.
Qed.

(** ** News fetcher *)

Lemma get_real_url_cases (w : World) (rss_link : pystr) (t : list Event) :
  ∃ url, get_real_url w rss_link t = (Ok url, t ++ [EvHead rss_link])
         ∧ (url = rss_link ∨ requests_head w t rss_link = Ok url).
Proof.
  unfold get_real_url. run.
  destruct (requests_head w t rss_link) as [u|e]; eauto.
Qed.

Lemma network_calls_snoc (t : list Event) (ev : Event) :
  is_network ev = true → network_calls (t ++ [ev]) = S (network_calls t).
Proof.
  intros Hev. unfold network_calls.
  rewrite List.filter_app, length_app. cbn. rewrite Hev. cbn. lia.
Qed.

(** What a returning run of the loop has done: one item per entry, built
    from it, after one HEAD and one GET each. *)
Lemma collect_entries_returns (w : World) (entries : list Entry) :
  ∀ news_items t all t',
    collect_entries w entries news_items t = (Ok all, t') →
    ∃ items,
      all = news_items ++ items
      ∧ Forall2 (built_from w) entries items
      ∧ network_calls t' = network_calls t + 2 * length entries.
Proof.
  induction entries as [|entry rest IH]; intros acc t all t' Hrun.
  - cbn [collect_entries] in Hrun. run in Hrun. injection Hrun as <- <-.
    exists []. rewrite app_nil_r. split; [done|]. split; [constructor|].
    cbn [length]. lia.
  - cbn [collect_entries] in Hrun. run in Hrun.
    destruct (entry_link entry) as [rss_link|] eqn:Hlink; [|discriminate].
    destruct (get_real_url_cases w rss_link t) as (u & Hu & Hcase).
    rewrite Hu in Hrun.
    destruct (crawl_article_total w u (t ++ [EvHead rss_link])) as [c Hc].
    rewrite Hc in Hrun.
    destruct (entry_title entry) as [title_read|] eqn:Htitle; [|discriminate].
    destruct (entry_published entry) as [published_read|] eqn:Hpub;
      [|discriminate].
    apply IH in Hrun as (items & -> & Hitems & Hcalls).
    eexists (_ :: items). rewrite <- app_assoc. split; [reflexivity|]. split.
    + constructor; [|exact Hitems].
      unfold built_from. cbn [title pubDate link content].
      split; [done|]. split; [done|]. split.
      * exists rss_link. split; [done|]. destruct Hcase as [->|Hcase]; eauto.
      * exists (t ++ [EvHead rss_link]). by rewrite Hc.
    + rewrite Hcalls, !network_calls_snoc by done. cbn [length]. lia.
Qed.

(** The loop returns when every entry carries the three attributes. *)
Lemma collect_entries_complete (w : World) (entries : list Entry) :
  Forall complete entries →
  ∀ news_items t, ∃ items t',
    collect_entries w entries news_items t = (Ok (news_items ++ items), t')
    ∧ length items = length entries.
Proof.
  induction 1 as [|entry rest (Hlink & Htitle & Hpub) _ IH]; intros acc t.
  - exists [], t. by rewrite app_nil_r.
  - cbn [collect_entries]. run.
    destruct Hlink as [rss_link ->], Htitle as [title_read ->],
      Hpub as [published_read ->].
    destruct (get_real_url_total w rss_link t) as [u ->].
    destruct (crawl_article_total w u (t ++ [EvHead rss_link])) as [c ->].
    edestruct IH as (items & t' & -> & Hlen).
    eexists (_ :: items), t'. rewrite <- app_assoc. cbn [length].
    by rewrite Hlen.
Qed.

(** C3: whenever [fetch_google_news] returns, it returns a list of at most
    2 items, whatever the keyword and the size of the feed.  When the
    parsed feed has no entries it returns the empty list.  It does return,
    with [min 2 n] items, when [quote] and the parse return and the first
    two of the [n] entries carry the attributes the loop reads. *)
Theorem fetch_google_news_at_most_two
    (w : World) (keyword : pystr) (t : list Event) :
  (∀ items t',
     fetch_google_news w keyword t = (Ok items, t') → length items ≤ 2)
  ∧ (∀ encoded,
       urllib_quote w keyword = Ok encoded →
       feedparser_entries w t (rss_url_of encoded) = Ok [] →
       fetch_google_news w keyword t
       = (Ok [], t ++ [EvFeed (rss_url_of encoded)]))
  ∧ (∀ encoded entries,
       urllib_quote w keyword = Ok encoded →
       feedparser_entries w t (rss_url_of encoded) = Ok entries →
       Forall complete (take 2 entries) →
       ∃ items t',
         fetch_google_news w keyword t = (Ok items, t')
         ∧ length items = 2 `min` length entries).
Proof.
  split; [|split].
  - intros items t' Hrun. unfold fetch_google_news in Hrun. run in Hrun.
    destruct (urllib_quote w keyword) as [encoded|e]; [|discriminate].
    destruct (feedparser_entries w t (rss_url_of encoded)) as [entries|e];
      [|discriminate].
    apply collect_entries_returns in Hrun as (items' & -> & Hitems & _).
    apply Forall2_length in Hitems. rewrite length_take in Hitems.
    cbn [app]. lia.
  - intros encoded Hquote Hfeed. unfold fetch_google_news. run.
    by rewrite Hquote, Hfeed.
  - intros encoded entries Hquote Hfeed Hcomplete.
    unfold fetch_google_news. run. rewrite Hquote, Hfeed.
    destruct (collect_entries_complete w (take 2 entries) Hcomplete []
                (t ++ [EvFeed (rss_url_of encoded)]))
      as (items & t' & -> & Hlen).
    exists items, t'. split; [done|]. by rewrite Hlen, length_take.
Qed.

Lemma fetch_google_news_at_most_two_witness :
  fetch_google_news Examples.offline_world (lit "AI") []
  = (Ok [], [] ++ [EvFeed (rss_url_of (lit "AI"))])
  ∧ ∃ items t',
      fetch_google_news Examples.online_world (lit "AI") [] = (Ok items, t')
      ∧ length items = 2 `min` length [Examples.entry 1; Examples.entry 2;
                                       Examples.entry 3]
      ∧ length items ≤ 2.
Proof.
  split.
  - apply (proj1 (proj2 (fetch_google_news_at_most_two Examples.offline_world
                           (lit "AI") [])) (lit "AI")); reflexivity.
  - destruct (fetch_google_news_at_most_two Examples.online_world (lit "AI") [])
      as (Hbound & _ & Hreturns).
    destruct (Hreturns (lit "AI")
                [Examples.entry 1; Examples.entry 2; Examples.entry 3]
                eq_refl eq_refl) as (items & t' & Hrun & Hlen).
    { repeat constructor; by eexists. }
    exists items, t'. split; [exact Hrun|]. split; [exact Hlen|].
    exact (Hbound items t' Hrun).
Defined.

(** A feed of three entries yields the first two, in order. *)
Example fetch_three_entries :
  match (fetch_google_news Examples.online_world (lit "AI") []).1 with
  | Ok items =>
    List.map title items = [lit "headline 1"; lit "headline 2"]
    ∧ List.map link items = [lit "https://news.example/rss/1/final";
                             lit "https://news.example/rss/2/final"]
    ∧ List.map (λ i, len (content i)) items = [3000; 3000]
  | Raise _ => False
  end.
Proof. vm_compute. done. Qed.

(** A fetch makes no model call and no archive write. *)
Lemma fetch_google_news_calls (w : World) (keyword : pystr) (t : list Event) :
  chat_calls (fetch_google_news w keyword t).2 = chat_calls t
  ∧ notion_calls (fetch_google_news w keyword t).2 = notion_calls t.
Proof.
  destruct (fetch_google_news_emits w keyword t) as (new & -> & Hnew).
  unfold chat_calls, notion_calls.
  split; apply count_app_none; eapply Forall_impl; try exact Hnew;
    by intros [].
Qed.

(** ** The 3000-character bound *)

(** C1 fails on the [except] branch of [crawl_article]: the error string
    embeds [str(e)] untruncated.  For a scheme-less link of 3000
    characters, whose error message quotes it, the scraper returns more
    than 3000 characters, and [fetch_google_news] builds a [NewsItem] whose
    content has more than 3000 characters. *)
Theorem crawl_article_error_text_exceeds_3000 :
  (∃ s, (crawl_article Examples.long_link_world Examples.long_url []).1 = Ok s
        ∧ 3000 < len s)
  ∧ (∃ item,
        (fetch_google_news Examples.long_link_world (lit "AI") []).1 = Ok [item]
        ∧ 3000 < len (content item)).
Proof.
  split; eexists; (split; [vm_compute; reflexivity|]);
    apply Nat.ltb_lt; vm_compute; reflexivity.
Qed.

(** ** Interactive pipeline *)

Lemma render_events_local (ms : list ChatMessage) :
  Forall local_event (List.map (λ m, EvRender (message m)) ms).
Proof. induction ms; simpl; by constructor. Qed.

Lemma page_local : Forall local_event PAGE.
Proof. unfold PAGE. by repeat constructor. Qed.

(** C5: for a query (not a greeting) whose fetch returns no item, the
    pipeline returns exactly the fixed not-found message; it stops where the
    fetch stopped, so the Summarizer is not invoked (no model call) and
    there is no archive write. *)
Theorem respond_empty_fetch_not_found
    (w : World) (prompt : pystr) (t t' : list Event) :
  prompt ∉ GREETINGS →
  fetch_google_news w prompt (t ++ [EvRender READING]) = (Ok [], t') →
  respond w prompt t = (Ok NOT_FOUND, t')
  ∧ chat_calls t' = chat_calls t
  ∧ notion_calls t' = notion_calls t.
Proof.
  intros Hng Hfetch. split.
  - unfold respond. destruct (decide _) as [Hg|_]; [done|].
    run. by rewrite Hfetch.
  - destruct (fetch_google_news_calls w prompt (t ++ [EvRender READING]))
      as [Hchat Hnotion].
    rewrite Hfetch in Hchat, Hnotion. simpl in Hchat, Hnotion.
    rewrite Hchat, Hnotion. unfold chat_calls, notion_calls.
    split; apply count_app_none; by repeat constructor.
Qed.

Lemma respond_empty_fetch_not_found_witness :
  respond Examples.offline_world (lit "AI") []
  = (Ok NOT_FOUND,
     [EvRender READING; EvFeed (rss_url_of (lit "AI"))])
  ∧ chat_calls
      [EvRender READING; EvFeed (rss_url_of (lit "AI"))]
    = chat_calls []
  ∧ notion_calls
      [EvRender READING; EvFeed (rss_url_of (lit "AI"))]
    = notion_calls [].
Proof.
  apply (respond_empty_fetch_not_found Examples.offline_world (lit "AI") []).
  - intros Hin. apply (bool_decide_pack _) in Hin. vm_compute in Hin.
    exact Hin.
  - reflexivity.
Defined.

(** C6: on an input equal to one of the two greeting phrases the pipeline
    returns the canned reply and leaves the trace as it was (no feed fetch,
    no scrape, no model call, no archive write); the whole script run for
    that input adds no network call. *)
Theorem respond_greeting_no_network
    (w : World) (prompt : pystr) (t : list Event) :
  prompt ∈ GREETINGS →
  respond w prompt t = (Ok GREETING_REPLY, t)
  ∧ ∀ sid p,
      network_calls (trace (script_run w sid (Some prompt) p).2)
      = network_calls (trace p).
Proof.
  intros Hg.
  assert (Hresp : ∀ t0, respond w prompt t0 = (Ok GREETING_REPLY, t0)).
  { intros t0. unfold respond. by destruct (decide (prompt ∈ GREETINGS)). }
  split; [apply Hresp|]. intros sid p. unfold script_run, network_calls.
  destruct (unset _); [simpl; apply count_app_none; by repeat constructor|].
  destruct (_ || _); [simpl; apply count_app_none; by repeat constructor|].
  destruct (default ∅ (session_state p !! sid) !! "scheduler_started");
    destruct (truthy prompt); rewrite ?Hresp; simpl;
    rewrite <- ?app_assoc; apply count_app_none;
    rewrite ?Forall_app; repeat split;
    auto using render_events_local, page_local; by repeat constructor.
Qed.

Lemma respond_greeting_no_network_witness :
  respond Examples.online_world (lit "안녕") [] = (Ok GREETING_REPLY, [])
  ∧ ∀ sid p,
      network_calls
        (trace (script_run Examples.online_world sid (Some (lit "안녕")) p).2)
      = network_calls (trace p).
Proof.
  apply (respond_greeting_no_network Examples.online_world (lit "안녕") []).
  apply (bool_decide_unpack (lit "안녕" ∈ GREETINGS)). vm_compute. exact I.
Defined.

(** ** Summarizer and archive writer *)

(** [summarize_news] is the model call and nothing else. *)
Lemma summarize_news_run
    (w : World) (items : list NewsItem) (query : pystr) (t : list Event) :
  summarize_news w items query t
  = (chat_completion w t (system_prompt_of query) (build_prompt 1 items []),
     t ++ [EvChat MODEL_NAME (system_prompt_of query) (build_prompt 1 items [])]).
Proof. reflexivity. Qed.



Lemma notion_calls_snoc_chat (t : list Event) (model system user : pystr) :
  notion_calls (t ++ [EvChat model system user]) = notion_calls t.
Proof. apply count_app_none. by repeat constructor. Qed.

Lemma calls_after_reading (t : list Event) :
  chat_calls (t ++ [EvRender READING]) = chat_calls t
  ∧ notion_calls (t ++ [EvRender READING]) = notion_calls t.
Proof. split; apply count_app_none; by repeat constructor. Qed.

(** The assistant turn of a non-greeting input, step by step. *)
Lemma respond_network_path
    (w : World) (prompt : pystr) (t : list Event) :
  prompt ∉ GREETINGS →
  respond w prompt t
  = match fetch_google_news w prompt (t ++ [EvRender READING]) with
    | (Ok [], t1) => (Ok NOT_FOUND, t1)
    | (Ok items, t1) =>
      match summarize_news w items prompt t1 with
      | (Ok summary, t2) =>
        match save_to_notion w prompt summary (Some (first_link items)) t2 with
        | (Ok _, t3) => (Ok (append_sources items (response_head prompt summary)), t3)
        | (Raise e, t3) => (Raise e, t3)
        end
      | (Raise e, t2) => (Raise e, t2)
      end
    | (Raise e, t1) => (Raise e, t1)
    end.
Proof.
  intros Hng. unfold respond. destruct (decide _) as [Hg|_]; [done|].
  run. destruct (fetch_google_news w prompt _) as [[[|item items]|e] t1]; done.
Qed.

(** C8: a failure of the model call is caught nowhere.  [summarize_news]
    raises it; the assistant turn, having fetched at least one item,
    raises it and writes nothing to the archive; [scheduled_job] raises
    it as well, and with it the scheduler loop ends. *)
Theorem model_failure_propagates (w : World) (e : Exn) :
  (∀ items query t,
     chat_completion w t (system_prompt_of query) (build_prompt 1 items [])
       = Raise e →
     summarize_news w items query t
     = (Raise e,
        t ++ [EvChat MODEL_NAME (system_prompt_of query)
                (build_prompt 1 items [])]))
  ∧ (∀ prompt t items t1,
       prompt ∉ GREETINGS →
       fetch_google_news w prompt (t ++ [EvRender READING]) = (Ok items, t1) →
       items ≠ [] →
       chat_completion w t1 (system_prompt_of prompt) (build_prompt 1 items [])
         = Raise e →
       (respond w prompt t).1 = Raise e
       ∧ notion_calls (respond w prompt t).2 = notion_calls t)
  ∧ (∀ t items t1,
       fetch_google_news w TARGET_KEYWORD (t ++ [EvPrint JOB_START])
         = (Ok items, t1) →
       items ≠ [] →
       chat_completion w t1 (system_prompt_of TARGET_KEYWORD)
         (build_prompt 1 items []) = Raise e →
       (scheduled_job w t).1 = Raise e
       ∧ notion_calls (scheduled_job w t).2 = notion_calls t
       ∧ (job_pending w t = true →
          ∀ n, (start_scheduler w (S n) t).1 = Raise e)).
Proof.
  split; [|split].
  - intros items query t Hfail. by rewrite summarize_news_run, Hfail.
  - intros prompt t items t1 Hng Hfetch Hne Hfail.
    rewrite respond_network_path, Hfetch, summarize_news_run, Hfail by done.
    destruct items as [|item items]; [done|]. cbn [fst snd]. split; [done|].
    rewrite notion_calls_snoc_chat.
    destruct (fetch_google_news_calls w prompt (t ++ [EvRender READING]))
      as [_ Hnotion].
    rewrite Hfetch in Hnotion. simpl in Hnotion. rewrite Hnotion.
    apply calls_after_reading.
  - intros t items t1 Hfetch Hne Hfail.
    assert (Hjob : scheduled_job w t
                   = (Raise e,
                      t1 ++ [EvChat MODEL_NAME (system_prompt_of TARGET_KEYWORD)
                               (build_prompt 1 items [])])).
    { unfold scheduled_job. run. rewrite Hfetch.
      replace (nonempty items) with true by (by destruct items).
      by rewrite summarize_news_run, Hfail. }
    rewrite Hjob. simpl. split; [done|]. split.
    + rewrite notion_calls_snoc_chat.
      destruct (fetch_google_news_calls w TARGET_KEYWORD
                  (t ++ [EvPrint JOB_START])) as [_ Hnotion].
      rewrite Hfetch in Hnotion. simpl in Hnotion. rewrite Hnotion.
      apply count_app_none. by repeat constructor.
    + intros Hdue n. simpl. unfold run_pending. run.
      by rewrite Hdue, Hjob.
Qed.

Lemma model_failure_propagates_witness :
  (summarize_news Examples.model_down_world [] (lit "AI") []).1
    = Raise Examples.timed_out
  ∧ (respond Examples.model_down_world (lit "AI") []).1
    = Raise Examples.timed_out
  ∧ (scheduled_job Examples.model_down_world []).1 = Raise Examples.timed_out
  ∧ (start_scheduler Examples.model_down_world 3 []).1
    = Raise Examples.timed_out.
Proof.
  destruct (model_failure_propagates Examples.model_down_world
              Examples.timed_out) as (Hsum & Hresp & Hjob).
  split; [|split].
  - rewrite (Hsum [] (lit "AI") []); reflexivity.
  - pose (r := fetch_google_news Examples.model_down_world (lit "AI")
                 ([] ++ [EvRender READING])).
    assert (Hf : r = (Ok (match r.1 with Ok l => l | Raise _ => [] end), r.2))
      by (vm_compute; reflexivity).
    refine (proj1 (Hresp (lit "AI") [] _ _ _ Hf _ _)).
    + intros Hin. apply (bool_decide_pack _) in Hin. vm_compute in Hin.
      exact Hin.
    + intros Hnil. vm_compute in Hnil. discriminate Hnil.
    + reflexivity.
  - pose (r := fetch_google_news Examples.model_down_world TARGET_KEYWORD
                 ([] ++ [EvPrint JOB_START])).
    assert (Hf : r = (Ok (match r.1 with Ok l => l | Raise _ => [] end), r.2))
      by (vm_compute; reflexivity).
    assert (Hne : match r.1 with Ok l => l | Raise _ => [] end ≠ []).
    { intros Hnil. vm_compute in Hnil. discriminate Hnil. }
    destruct (Hjob [] _ _ Hf Hne eq_refl) as (Hraise & _ & Hloop).
    split; [exact Hraise|]. exact (Hloop eq_refl 2).
Defined.

(** The script hands on what the assistant turn raises: nothing between
    line 171 and line 197 catches it. *)
Lemma script_run_raises_with_respond
    (w : World) (sid : nat) (prompt : pystr) (p : Process) :
  unset (openai_api_key (config w)) = false →
  unset (notion_api_key (config w)) || unset (notion_db_id (config w)) = false →
  truthy prompt = true →
  ∃ t4, (script_run w sid (Some prompt) p).1
        = match (respond w prompt t4).1 with
          | Ok _ => Ok tt
          | Raise e => Raise e
          end.
Proof.
  intros Hkey Hnotion Htruthy. unfold script_run.
  rewrite Hkey, Hnotion, Htruthy.
  destruct (default ∅ (session_state p !! sid) !! "scheduler_started");
    cbv zeta; eexists;
    match goal with
    | |- context [respond w prompt ?t] =>
      destruct (respond w prompt t) as [[full|e] t5] eqn:Hr
    end; rewrite Hr; reflexivity.
Qed.

(** ** Scheduler loop *)

(** C9: when the fetch of the daily job returns no item, the job makes no
    model call and no archive write, logs its completion and returns; the
    loop then sleeps and goes on with its next round. *)
Theorem scheduled_job_empty_fetch_skips
    (w : World) (t t1 : list Event) :
  fetch_google_news w TARGET_KEYWORD (t ++ [EvPrint JOB_START]) = (Ok [], t1) →
  scheduled_job w t = (Ok tt, t1 ++ [EvPrint JOB_DONE])
  ∧ chat_calls (t1 ++ [EvPrint JOB_DONE]) = chat_calls t
  ∧ notion_calls (t1 ++ [EvPrint JOB_DONE]) = notion_calls t
  ∧ (job_pending w t = true →
     ∀ n, start_scheduler w (S n) t
          = start_scheduler w n ((t1 ++ [EvPrint JOB_DONE]) ++ [EvSleep 1])).
Proof.
  intros Hfetch.
  assert (Hjob : scheduled_job w t = (Ok tt, t1 ++ [EvPrint JOB_DONE])).
  { unfold scheduled_job. run. by rewrite Hfetch. }
  destruct (fetch_google_news_calls w TARGET_KEYWORD (t ++ [EvPrint JOB_START]))
    as [Hchat Hnotion].
  rewrite Hfetch in Hchat, Hnotion. cbn [snd] in Hchat, Hnotion.
  split; [exact Hjob|]. split; [|split].
  - unfold chat_calls in *. rewrite count_app_none by (by repeat constructor).
    rewrite Hchat. apply count_app_none. by repeat constructor.
  - unfold notion_calls in *. rewrite count_app_none by (by repeat constructor).
    rewrite Hnotion. apply count_app_none. by repeat constructor.
  - intros Hdue n. cbn [start_scheduler]. unfold run_pending. run.
    by rewrite Hdue, Hjob.
Qed.

Lemma scheduled_job_empty_fetch_skips_witness :
  scheduled_job Examples.offline_world []
  = (Ok tt,
     [EvPrint JOB_START;
      EvFeed (rss_url_of TARGET_KEYWORD)]
     ++ [EvPrint JOB_DONE])
  ∧ start_scheduler Examples.offline_world 2 []
    = start_scheduler Examples.offline_world 1
        (([EvPrint JOB_START;
           EvFeed (rss_url_of TARGET_KEYWORD)]
          ++ [EvPrint JOB_DONE]) ++ [EvSleep 1]).
Proof.
  destruct (scheduled_job_empty_fetch_skips Examples.offline_world []
              [EvPrint JOB_START;
               EvFeed (rss_url_of TARGET_KEYWORD)]
              eq_refl) as (Hjob & _ & _ & Hloop).
  split; [exact Hjob|]. exact (Hloop eq_refl 1).
Defined.

(** ** Greeting fast path *)






(** A query that is not a greeting costs seven network calls when the feed
    has entries and every service answers. *)
Example respond_non_greeting_calls :
  network_calls (respond Examples.online_world (lit "안녕하세요") []).2 = 7.
Proof. vm_compute. reflexivity. Qed.

(** Neither surrounding whitespace nor a longer greeting is a greeting. *)
Example greeting_is_exact :
  (lit " 안녕" ∉ GREETINGS) ∧ (lit "안녕 " ∉ GREETINGS)
  ∧ (lit "안녕하세요" ∉ GREETINGS) ∧ (lit "반가워요" ∉ GREETINGS)
  ∧ (lit "안녕" ∈ GREETINGS) ∧ (lit "반가워" ∈ GREETINGS).
Proof.
  repeat split;
    try (intros Hin; apply (bool_decide_pack _) in Hin; vm_compute in Hin;
         exact Hin);
    apply (bool_decide_unpack _); vm_compute; exact I.
Qed.

(** ** Scheduler start-up *)

Lemma respond_emits_no_thread_start (w : World) (prompt : pystr) :
  emits no_thread_start (respond w prompt).
Proof.
  unfold respond. destruct (decide _); [apply emits_ret|].
  apply emits_bind; [by apply emits_emit|]. intros _.
  apply emits_bind.
  { eapply emits_weaken; [|apply fetch_google_news_emits]. by intros []. }
  intros items. destruct (nonempty items); [|apply emits_ret].
  apply emits_bind; [by apply emits_call|]. intros summary.
  apply emits_bind; [|intros; apply emits_ret].
  apply emits_try.
  - apply emits_bind; [apply emits_ask|]. intros date.
    apply emits_bind; [by apply emits_call|]. intros _.
    apply emits_bind; [by apply emits_emit|]. intros _. apply emits_ret.
  - intros e. apply emits_bind; [by apply emits_emit|]. intros _.
    apply emits_ret.
Qed.

Lemma threads_started_app (t new : list Event) :
  threads_started (t ++ new) = threads_started t + threads_started new.
Proof. unfold threads_started. by rewrite List.filter_app, length_app. Qed.

Lemma threads_started_none (new : list Event) :
  Forall no_thread_start new → threads_started new = 0.
Proof.
  intros Hnew. unfold threads_started.
  induction Hnew as [|e new He _ IH]; [done|]. simpl. by rewrite He.
Qed.

(** What one run of the script adds to the number of started threads: one
    if the session's store has no ["scheduler_started"] key, none if it
    has. *)
Lemma script_run_threads
    (w : World) (sid : nat) (chat_input : option pystr) (p : Process) :
  unset (openai_api_key (config w)) = false →
  unset (notion_api_key (config w)) || unset (notion_db_id (config w)) = false →
  threads_started (trace (script_run w sid chat_input p).2)
  = threads_started (trace p)
    + match default ∅ (session_state p !! sid) !! "scheduler_started" with
      | None => 1
      | Some _ => 0
      end.
Proof.
  intros Hkey Hnotion. unfold script_run. rewrite Hkey, Hnotion.
  assert (Hpage : threads_started PAGE = 0) by reflexivity.
  assert (Hmsgs : ∀ ms,
            threads_started (List.map (λ m, EvRender (message m)) ms) = 0).
  { intros ms. apply threads_started_none. induction ms; by constructor. }
  destruct (default ∅ (session_state p !! sid) !! "scheduler_started");
    cbv zeta;
    (destruct chat_input as [prompt|]; [destruct (truthy prompt)|]);
    try match goal with
    | |- context [respond w prompt ?t] =>
      destruct (respond_emits_no_thread_start w prompt t) as (new & Hnew & Hnone);
      destruct (respond w prompt t) as [[full|e] t5];
      cbn [snd] in Hnew; subst t5; apply threads_started_none in Hnone
    end;
    cbn [trace snd]; rewrite ?threads_started_app, ?Hpage, ?Hmsgs, ?Hnone;
    cbn; lia.
Qed.

(** C2 fails as soon as a second browser session loads the page: the guard
    reads the per-session store, which is empty for the new session, so the
    script starts a second scheduler thread. *)
Theorem second_session_starts_second_scheduler
    (w : World) (s1 s2 : nat) :
  unset (openai_api_key (config w)) = false →
  unset (notion_api_key (config w)) || unset (notion_db_id (config w)) = false →
  s1 ≠ s2 →
  threads_started
    (trace (script_runs w [(s1, None); (s2, None)] initial_process)) = 2.
Proof.
  intros Hkey Hnotion Hne. cbn [script_runs].
  rewrite !script_run_threads by done.
  assert (H1 : session_state initial_process !! s1 = None) by apply lookup_empty.
  rewrite H1. cbn [default].
  assert (H2 : session_state (script_run w s1 None initial_process).2 !! s2
               = None).
  { unfold script_run. rewrite Hkey, Hnotion, H1. cbn [default].
    destruct (_ !! "scheduler_started"); cbn [session_state snd];
      rewrite lookup_insert_ne by done; apply lookup_empty. }
  rewrite H2. cbn [default]. rewrite !lookup_empty. reflexivity.
Qed.

Lemma second_session_starts_second_scheduler_witness :
  threads_started
    (trace (script_runs Examples.online_world [(0, None); (1, None)]
              initial_process)) = 2.
Proof.
  apply (second_session_starts_second_scheduler Examples.online_world 0 1).
  - reflexivity.
  - reflexivity.
  - lia.
Defined.

(** Within one session the guard works: once the key is in the session's
    store, a run of the script for that session starts no thread. *)
Lemma same_session_starts_no_second_scheduler
    (w : World) (sid : nat) (input1 input2 : option pystr) (p : Process) :
  unset (openai_api_key (config w)) = false →
  unset (notion_api_key (config w)) || unset (notion_db_id (config w)) = false →
  let p1 := (script_run w sid input1 p).2 in
  threads_started (trace (script_run w sid input2 p1).2)
  = threads_started (trace p1).
Proof.
  intros Hkey Hnotion p1. rewrite script_run_threads by done.
  assert (Hstarted :
            is_Some (default ∅ (session_state p1 !! sid) !! "scheduler_started")).
  { unfold p1, script_run. rewrite Hkey, Hnotion.
    destruct (default ∅ (session_state p !! sid) !! "scheduler_started")
      as [v|] eqn:Hv; cbv zeta;
      (destruct input1 as [prompt|]; [destruct (truthy prompt)|]);
      try match goal with
      | |- context [respond w prompt ?t] =>
        destruct (respond w prompt t) as [[full|e] t5]
      end;
      cbn [session_state snd]; rewrite lookup_insert_eq; cbn [from_option id];
      repeat match goal with
      | |- context [match ?m !! "messages" with _ => _ end] =>
        destruct (m !! "messages")
      end;
      rewrite ?lookup_insert_ne by done; rewrite ?lookup_insert_eq; eauto. }
  destruct Hstarted as [v ->]. lia.
Qed.

(** * Further properties of the code *)


(** ** Redirect resolver and scraper *)

(** X1: [crawl_article] never raises, whatever the GET, the status or the
    parser do, and it makes exactly one network call. *)
Theorem crawl_article_never_raises
    (w : World) (url : pystr) (t : list Event) :
  (∀ e, (crawl_article w url t).1 ≠ Raise e)
  ∧ network_calls (crawl_article w url t).2 = S (network_calls t).
Proof.
  destruct (crawl_article_total w url t) as [s ->]. split; [done|].
  cbn [snd]. unfold network_calls.
  rewrite List.filter_app, length_app. cbn. lia.
Qed.

(** X2: on a 200 response whose paragraphs, joined by single spaces, have
    at least 50 characters (50 included), the scraper returns the first
    3000 characters of that text: a prefix of it, of length
    [min 3000 (len content)], and the whole text when it has at most 3000
    characters. *)
Theorem crawl_article_returns_prefix
    (w : World) (url : pystr) (t : list Event) (r : Response)
    (paragraphs : list pystr) :
  requests_get w t url = Ok r →
  status_code r = 200%Z →
  soup_find_all_p w (text r) = Ok paragraphs →
  50 ≤ len (join (lit " ") paragraphs) →
  let content := join (lit " ") paragraphs in
  ∃ s, crawl_article w url t = (Ok s, t ++ [EvGet url USER_AGENT])
       ∧ s `prefix_of` content
       ∧ len s = 3000 `min` len content
       ∧ (len content ≤ 3000 → s = content).
Proof.
  intros Hget Hstatus Hps Hlong content.
  exists (slice_to 3000 content). split; [|split; [|split]].
  - unfold crawl_article. run. rewrite Hget.
    apply Z.eqb_eq in Hstatus. rewrite Hstatus. run. rewrite Hps.
    fold content. apply Nat.ltb_ge in Hlong. fold content in Hlong.
    by rewrite Hlong.
  - apply prefix_take.
  - apply length_take.
  - intros Hshort. by apply take_ge.
Qed.

Lemma crawl_article_returns_prefix_witness :
  ∃ s, crawl_article Examples.online_world (lit "https://news.example/a") []
       = (Ok s, [] ++ [EvGet (lit "https://news.example/a") USER_AGENT])
       ∧ s `prefix_of` join (lit " ") [Examples.long_text]
       ∧ len s = 3000 `min` len (join (lit " ") [Examples.long_text])
       ∧ (len (join (lit " ") [Examples.long_text]) ≤ 3000
          → s = join (lit " ") [Examples.long_text]).
Proof.
  refine (crawl_article_returns_prefix Examples.online_world
            (lit "https://news.example/a") []
            {| status_code := 200; text := Examples.long_text |}
            [Examples.long_text] _ _ _ _).
  - vm_compute. reflexivity.
  - reflexivity.
  - reflexivity.
  - apply Nat.leb_le. vm_compute. reflexivity.
Defined.

(** X3: when the GET raises, or the parser raises on a 200 response, the
    scraper returns the error prefix followed by the whole of [str(e)]:
    8 characters more than the message. *)
Theorem crawl_article_error_text
    (w : World) (url : pystr) (t : list Event) (e : Exn) :
  requests_get w t url = Raise e
  ∨ (∃ r, requests_get w t url = Ok r ∧ status_code r = 200%Z
          ∧ soup_find_all_p w (text r) = Raise e) →
  crawl_article w url t
  = (Ok (CRAWL_ERROR ++ exn_msg e), t ++ [EvGet url USER_AGENT])
  ∧ len (CRAWL_ERROR ++ exn_msg e) = 8 + len (exn_msg e).
Proof.
  intros Hraise. split; [|reflexivity].
  unfold crawl_article. run.
  destruct Hraise as [->|(r & -> & Hstatus & Hsoup)]; [done|].
  apply Z.eqb_eq in Hstatus. rewrite Hstatus. run. by rewrite Hsoup.
Qed.

Lemma crawl_article_error_text_witness :
  crawl_article Examples.offline_world (lit "https://news.example/a") []
  = (Ok (CRAWL_ERROR ++ exn_msg Examples.timed_out),
     [] ++ [EvGet (lit "https://news.example/a") USER_AGENT])
  ∧ len (CRAWL_ERROR ++ exn_msg Examples.timed_out)
    = 8 + len (exn_msg Examples.timed_out).
Proof.
  apply (crawl_article_error_text Examples.offline_world
           (lit "https://news.example/a") [] Examples.timed_out).
  left. reflexivity.
Defined.

Lemma crawl_article_bounded_without_exception_witness :
  len NO_CONTENT ≤ 3000.
Proof.
  refine (crawl_article_bounded_without_exception Examples.online_world
            (lit "https://news.example/short") []
            {| status_code := 200; text := lit "too short" |}
            NO_CONTENT _ _ _).
  - vm_compute. reflexivity.
  - right. exists [lit "too short"]. reflexivity.
  - vm_compute. reflexivity.
Defined.

(** X5: when the HEAD request succeeds, [get_real_url] returns the final
    URL the response reports, after that one request. *)
Theorem get_real_url_resolves
    (w : World) (rss_link final : pystr) (t : list Event) :
  requests_head w t rss_link = Ok final →
  get_real_url w rss_link t = (Ok final, t ++ [EvHead rss_link])
  ∧ network_calls (get_real_url w rss_link t).2 = S (network_calls t).
Proof.
  intros Hhead.
  assert (Hrun : get_real_url w rss_link t = (Ok final, t ++ [EvHead rss_link])).
  { unfold get_real_url. run. by rewrite Hhead. }
  rewrite Hrun. split; [done|]. cbn [snd]. unfold network_calls.
  rewrite List.filter_app, length_app. cbn. lia.
Qed.

Lemma get_real_url_resolves_witness :
  get_real_url Examples.online_world (lit "https://news.example/rss/1") []
  = (Ok (lit "https://news.example/rss/1" ++ lit "/final"),
     [] ++ [EvHead (lit "https://news.example/rss/1")])
  ∧ network_calls
      (get_real_url Examples.online_world (lit "https://news.example/rss/1")
         []).2 = S (network_calls []).
Proof.
  apply (get_real_url_resolves Examples.online_world
           (lit "https://news.example/rss/1")
           (lit "https://news.example/rss/1" ++ lit "/final") []).
  reflexivity.
Defined.

(** ** News fetcher *)

(** X6: when a fetch returns, [quote] and the feed parse had returned, and
    the items are built from the first two feed entries, in feed order: each
    carries its entry's title and published date, a link that is the entry's
    own link or what a HEAD request on it answered, and as content what the
    scraper returned for that link. *)
Theorem fetch_google_news_items_follow_entries
    (w : World) (keyword : pystr) (t t' : list Event) (items : list NewsItem) :
  fetch_google_news w keyword t = (Ok items, t') →
  ∃ encoded entries,
    urllib_quote w keyword = Ok encoded
    ∧ feedparser_entries w t (rss_url_of encoded) = Ok entries
    ∧ Forall2 (built_from w) (take 2 entries) items.
Proof.
  intros Hrun. unfold fetch_google_news in Hrun. run in Hrun.
  destruct (urllib_quote w keyword) as [encoded|e]; [|discriminate].
  destruct (feedparser_entries w t (rss_url_of encoded)) as [entries|e] eqn:Hfeed;
    [|discriminate].
  apply collect_entries_returns in Hrun as (items' & -> & Hitems & _).
  by exists encoded, entries.
Qed.

Lemma fetch_google_news_items_follow_entries_witness :
  ∃ items encoded entries,
    (fetch_google_news Examples.online_world (lit "AI") []).1 = Ok items
    ∧ urllib_quote Examples.online_world (lit "AI") = Ok encoded
    ∧ feedparser_entries Examples.online_world [] (rss_url_of encoded)
      = Ok entries
    ∧ Forall2 (built_from Examples.online_world) (take 2 entries) items.
Proof.
  pose (r := fetch_google_news Examples.online_world (lit "AI") []).
  assert (Hf : r = (Ok (match r.1 with Ok l => l | Raise _ => [] end), r.2))
    by (vm_compute; reflexivity).
  destruct (fetch_google_news_items_follow_entries Examples.online_world
              (lit "AI") [] _ _ Hf) as (encoded & entries & Hq & Hp & Hitems).
  eexists _, encoded, entries. split; [|by split].
  fold r. rewrite Hf. reflexivity.
Defined.

Lemma collect_entries_calls_bound (w : World) (entries : list Entry) :
  ∀ news_items t,
    network_calls (collect_entries w entries news_items t).2
    ≤ network_calls t + 2 * length entries.
Proof.
  induction entries as [|entry rest IH]; intros acc t.
  - cbn [collect_entries]. steps. cbn [snd length]. lia.
  - cbn [collect_entries length]. steps.
    destruct (entry_link entry) as [rss_link|]; [|cbn [snd]; lia].
    destruct (get_real_url_total w rss_link t) as [u ->].
    destruct (crawl_article_total w u (t ++ [EvHead rss_link])) as [c ->].
    assert (Hcalls : network_calls
                       ((t ++ [EvHead rss_link]) ++ [EvGet u USER_AGENT])
                     = network_calls t + 2)
      by (rewrite !network_calls_snoc by done; lia).
    destruct (entry_title entry) as [title_read|]; [|cbn [snd]; lia].
    destruct (entry_published entry) as [published_read|]; [|cbn [snd]; lia].
    etransitivity; [apply IH|]. lia.
Qed.

(** X7: a fetch never makes more than 5 network calls (the feed request,
    then one HEAD and one GET for each of at most two entries), also when
    it raises; a fetch that returns [k] items has made exactly [1 + 2 * k]. *)
Theorem fetch_google_news_network_calls
    (w : World) (keyword : pystr) (t : list Event) :
  network_calls (fetch_google_news w keyword t).2 ≤ network_calls t + 5
  ∧ ∀ items t',
      fetch_google_news w keyword t = (Ok items, t') →
      network_calls t' = network_calls t + 1 + 2 * length items.
Proof.
  split.
  - unfold fetch_google_news. steps.
    destruct (urllib_quote w keyword) as [encoded|e]; [|cbn [snd]; lia].
    destruct (feedparser_entries w t (rss_url_of encoded)) as [entries|e].
    + etransitivity; [apply collect_entries_calls_bound|].
      rewrite network_calls_snoc, length_take by done. lia.
    + cbn [snd]. rewrite network_calls_snoc by done. lia.
  - intros items t' Hrun. unfold fetch_google_news in Hrun. run in Hrun.
    destruct (urllib_quote w keyword) as [encoded|e]; [|discriminate].
    destruct (feedparser_entries w t (rss_url_of encoded)) as [entries|e];
      [|discriminate].
    apply collect_entries_returns in Hrun as (items' & -> & Hitems & Hcalls).
    apply Forall2_length in Hitems.
    rewrite Hcalls, network_calls_snoc, Hitems by done. cbn [app]. lia.
Qed.

Lemma fetch_google_news_network_calls_witness :
  network_calls (fetch_google_news Examples.online_world (lit "AI") []).2
  = network_calls [] + 1 + 2 * 2.
Proof.
  pose (r := fetch_google_news Examples.online_world (lit "AI") []).
  assert (Hf : r = (Ok (match r.1 with Ok l => l | Raise _ => [] end), r.2))
    by (vm_compute; reflexivity).
  pose proof (proj2 (fetch_google_news_network_calls Examples.online_world
                       (lit "AI") []) _ _ Hf) as Hcalls.
  change (network_calls r.2 = network_calls [] + 1 + 2 * 2).
  rewrite Hcalls. vm_compute. reflexivity.
Defined.

Lemma collect_entries_incomplete (w : World) (entries : list Entry) :
  ¬ Forall complete entries →
  ∀ news_items t, ∃ name t',
    collect_entries w entries news_items t
    = (Raise (attribute_error name), t').
Proof.
  induction entries as [|entry rest IH]; intros Hnot acc t.
  - destruct Hnot. constructor.
  - cbn [collect_entries]. run.
    destruct (entry_link entry) as [rss_link|] eqn:Hlink; [|by eexists _, _].
    destruct (get_real_url_total w rss_link t) as [u ->].
    destruct (crawl_article_total w u (t ++ [EvHead rss_link])) as [c ->].
    destruct (entry_title entry) as [title_read|] eqn:Htitle;
      [|by eexists _, _].
    destruct (entry_published entry) as [published_read|] eqn:Hpub;
      [|by eexists _, _].
    apply IH. intros Hrest. apply Hnot. constructor; [|exact Hrest].
    unfold complete. rewrite Hlink, Htitle, Hpub. eauto.
Qed.

(** X20: [fetch_google_news] hands on what its unguarded steps raise.  If
    [quote] raises, the fetch raises the same error before any request; if
    the feed parse raises, it raises that error after the feed request; and
    if one of the first two entries lacks a link, a title or a published
    date, it raises the attribute error instead of returning. *)
Theorem fetch_google_news_propagates_errors
    (w : World) (keyword : pystr) (t : list Event) :
  (∀ e, urllib_quote w keyword = Raise e →
        fetch_google_news w keyword t = (Raise e, t))
  ∧ (∀ encoded e,
       urllib_quote w keyword = Ok encoded →
       feedparser_entries w t (rss_url_of encoded) = Raise e →
       fetch_google_news w keyword t
       = (Raise e, t ++ [EvFeed (rss_url_of encoded)]))
  ∧ (∀ encoded entries,
       urllib_quote w keyword = Ok encoded →
       feedparser_entries w t (rss_url_of encoded) = Ok entries →
       ¬ Forall complete (take 2 entries) →
       ∃ name t',
         fetch_google_news w keyword t = (Raise (attribute_error name), t')).
Proof.
  split; [|split].
  - intros e Hquote. unfold fetch_google_news. run. by rewrite Hquote.
  - intros encoded e Hquote Hfeed. unfold fetch_google_news. run.
    by rewrite Hquote, Hfeed.
  - intros encoded entries Hquote Hfeed Hnot. unfold fetch_google_news. run.
    rewrite Hquote, Hfeed.
    by apply collect_entries_incomplete.
Qed.

Lemma fetch_google_news_propagates_errors_witness :
  (∃ e, fetch_google_news Examples.online_world [55357%N] [] = (Raise e, []))
  ∧ ∃ name t',
      fetch_google_news Examples.undated_world (lit "AI") []
      = (Raise (attribute_error name), t').
Proof.
  split.
  - eexists.
    apply (proj1 (fetch_google_news_propagates_errors Examples.online_world
                    [55357%N] [])).
    reflexivity.
  - apply (proj2 (proj2 (fetch_google_news_propagates_errors
                           Examples.undated_world (lit "AI") []))
             (lit "AI")
             [Examples.entry 1; Examples.undated_entry; Examples.entry 3]);
      [reflexivity|reflexivity|].
    intros Hall. inversion Hall as [|? ? _ Hrest]. subst.
    inversion Hrest as [|? ? (_ & _ & Hpub) _]. subst.
    destruct Hpub as [v Hv]. discriminate Hv.
Defined.

(** ** Summarizer *)

Lemma build_prompt_acc (news_data : list NewsItem) :
  ∀ idx prompt_text,
    build_prompt idx news_data prompt_text
    = prompt_text ++ build_prompt idx news_data [].
Proof.
  induction news_data as [|item rest IH]; intros idx acc.
  - cbn [build_prompt]. by rewrite app_nil_r.
  - cbn [build_prompt]. rewrite IH. rewrite (IH _ ([] ++ _)).
    by rewrite app_nil_l, <- app_assoc.
Qed.

Lemma build_prompt_cons (idx : nat) (item : NewsItem) (rest : list NewsItem) :
  build_prompt idx (item :: rest) []
  = article_block idx item ++ build_prompt (S idx) rest [].
Proof.
  cbn [build_prompt]. rewrite build_prompt_acc. rewrite app_nil_l.
  unfold article_block. by rewrite <- !app_assoc.
Qed.

Lemma build_prompt_blocks (news_data : list NewsItem) :
  ∀ idx,
    build_prompt idx news_data []
    = concat (zip_with article_block (seq idx (length news_data)) news_data).
Proof.
  induction news_data as [|item rest IH]; intros idx; [done|].
  rewrite build_prompt_cons, IH. reflexivity.
Qed.

(** X8: the user message [summarize_news] sends to the model is the
    concatenation of one block per item, numbered from 1 in list order, each
    block holding the item's title and its whole content; for an empty list
    the message is empty, and the call is made all the same. *)
Theorem summarize_news_prompt_blocks
    (w : World) (news_data : list NewsItem) (query : pystr) (t : list Event) :
  ∃ user,
    (summarize_news w news_data query t).2
    = t ++ [EvChat MODEL_NAME (system_prompt_of query) user]
    ∧ user
      = concat (zip_with article_block (seq 1 (length news_data)) news_data)
    ∧ (news_data = [] → user = []).
Proof.
  exists (build_prompt 1 news_data []).
  split; [by rewrite summarize_news_run|].
  split; [apply build_prompt_blocks|]. by intros ->.
Qed.

Lemma summarize_news_prompt_blocks_witness :
  ∃ user,
    (summarize_news Examples.online_world [] (lit "AI") []).2
    = [] ++ [EvChat MODEL_NAME (system_prompt_of (lit "AI")) user]
    ∧ user = [].
Proof.
  destruct (summarize_news_prompt_blocks Examples.online_world [] (lit "AI") [])
    as (user & Htrace & _ & Hempty).
  exists user. split; [exact Htrace|]. apply Hempty. reflexivity.
Defined.

(** ** Archive writer *)

Lemma save_to_notion_steps
    (w : World) (query summary : pystr) (lnk : option pystr) (t : list Event) :
  let date := datetime_now_isoformat w t in
  let answer := notion_pages_create w t query summary date (stored_link lnk) in
  save_to_notion w query summary lnk t
  = (Ok (match answer with Ok _ => true | Raise _ => false end),
     t ++ [EvNotion query summary date (stored_link lnk);
           EvPrint (notion_log_line query answer)]).
Proof.
  intros date answer. unfold save_to_notion. run.
  fold (stored_link lnk). fold date. fold answer.
  destruct answer as [[]|e]; cbn [notion_log_line]; by rewrite <- app_assoc.
Qed.

(** X9: [save_to_notion] never raises.  It makes one create call, dated at
    the moment of the call, storing the link or null for a missing or empty
    link; it returns [True] exactly when the store accepted the record, and
    prints one line: the success line, or the error line with [str(e)]. *)
Theorem save_to_notion_never_raises
    (w : World) (query summary : pystr) (lnk : option pystr) (t : list Event) :
  let date := datetime_now_isoformat w t in
  let answer := notion_pages_create w t query summary date (stored_link lnk) in
  ∃ saved,
    save_to_notion w query summary lnk t
    = (Ok saved,
       t ++ [EvNotion query summary date (stored_link lnk);
             EvPrint (notion_log_line query answer)])
    ∧ (saved = true ↔ answer = Ok tt)
    ∧ (stored_link lnk = None ↔ lnk = None ∨ lnk = Some []).
Proof.
  intros date answer. eexists. split; [apply save_to_notion_steps|].
  fold date. fold answer. split.
  - destruct answer as [[]|e]; split; done.
  - destruct lnk as [[|c l]|]; cbn; split; intros H; try done; eauto;
      by destruct H.
Qed.

(** ** Daily job and scheduler loop *)

(** X10: when the daily fetch returns items and the model answers, the job
    writes one archive record whose query is the auto tag followed by the
    fixed topic, whose summary is the model's answer and whose link is the
    first item's link; it logs completion and returns, whether or not the
    store accepted the record. *)
Theorem scheduled_job_archives_summary
    (w : World) (t t1 : list Event) (items : list NewsItem) (summary : pystr) :
  fetch_google_news w TARGET_KEYWORD (t ++ [EvPrint JOB_START]) = (Ok items, t1) →
  items ≠ [] →
  chat_completion w t1 (system_prompt_of TARGET_KEYWORD)
    (build_prompt 1 items []) = Ok summary →
  ∃ date line,
    scheduled_job w t
    = (Ok tt,
       ((t1 ++ [EvChat MODEL_NAME (system_prompt_of TARGET_KEYWORD)
                  (build_prompt 1 items [])])
        ++ [EvNotion (lit "[자동] " ++ TARGET_KEYWORD) summary date
              (stored_link (Some (first_link items)));
            EvPrint line])
       ++ [EvPrint JOB_DONE]).
Proof.
  intros Hfetch Hne Hchat. eexists _, _.
  unfold scheduled_job. run. rewrite Hfetch.
  replace (nonempty items) with true by (by destruct items).
  rewrite summarize_news_run, Hchat, save_to_notion_steps. reflexivity.
Qed.

Lemma scheduled_job_archives_summary_witness :
  ∃ date line,
    scheduled_job Examples.archive_down_world []
    = (Ok tt,
       (((fetch_google_news Examples.archive_down_world TARGET_KEYWORD
            ([] ++ [EvPrint JOB_START])).2
         ++ [EvChat MODEL_NAME (system_prompt_of TARGET_KEYWORD)
               (build_prompt 1
                  (match (fetch_google_news Examples.archive_down_world
                            TARGET_KEYWORD ([] ++ [EvPrint JOB_START])).1 with
                   | Ok l => l
                   | Raise _ => []
                   end) [])])
        ++ [EvNotion (lit "[자동] " ++ TARGET_KEYWORD)
              (lit "three line summary") date
              (stored_link
                 (Some (first_link
                          (match (fetch_google_news Examples.archive_down_world
                                    TARGET_KEYWORD
                                    ([] ++ [EvPrint JOB_START])).1 with
                           | Ok l => l
                           | Raise _ => []
                           end))));
            EvPrint line])
       ++ [EvPrint JOB_DONE]).
Proof.
  pose (r := fetch_google_news Examples.archive_down_world TARGET_KEYWORD
               ([] ++ [EvPrint JOB_START])).
  assert (Hf : r = (Ok (match r.1 with Ok l => l | Raise _ => [] end), r.2))
    by (vm_compute; reflexivity).
  assert (Hne : match r.1 with Ok l => l | Raise _ => [] end ≠ []).
  { intros Hnil. vm_compute in Hnil. discriminate Hnil. }
  exact (scheduled_job_archives_summary Examples.archive_down_world [] _ _
           (lit "three line summary") Hf Hne eq_refl).
Defined.

(** X11: while the job is not due, the loop only sleeps: [n] rounds add
    [n] one-second sleeps to the trace and nothing else. *)
Theorem start_scheduler_idle (w : World) (n : nat) (t : list Event) :
  (∀ t', job_pending w t' = false) →
  start_scheduler w n t = (Ok tt, t ++ repeat (EvSleep 1) n).
Proof.
  intros Hidle. revert t. induction n as [|n IH]; intros t.
  - cbn [start_scheduler repeat]. run. by rewrite app_nil_r.
  - cbn [start_scheduler repeat]. unfold run_pending. run.
    rewrite Hidle, IH, <- app_assoc. reflexivity.
Qed.

Lemma start_scheduler_idle_witness :
  start_scheduler Examples.idle_world 3 []
  = (Ok tt, [] ++ repeat (EvSleep 1) 3).
Proof.
  apply (start_scheduler_idle Examples.idle_world 3 []).
  intros t'. reflexivity.
Defined.

(** ** Assistant turn *)

(** X12: when the fetch returns items and the model answers, the turn
    writes one archive record (the query as typed, the model's answer, the
    first item's link) after the model call, and replies with the formatted
    summary whether or not the store accepted the record. *)
Theorem respond_archives_then_replies
    (w : World) (prompt : pystr) (t t1 : list Event) (items : list NewsItem)
    (summary : pystr) :
  prompt ∉ GREETINGS →
  fetch_google_news w prompt (t ++ [EvRender READING]) = (Ok items, t1) →
  items ≠ [] →
  chat_completion w t1 (system_prompt_of prompt) (build_prompt 1 items [])
    = Ok summary →
  ∃ date line,
    respond w prompt t
    = (Ok (append_sources items (response_head prompt summary)),
       (t1 ++ [EvChat MODEL_NAME (system_prompt_of prompt)
                 (build_prompt 1 items [])])
       ++ [EvNotion prompt summary date (stored_link (Some (first_link items)));
           EvPrint line]).
Proof.
  intros Hng Hfetch Hne Hchat. eexists _, _.
  rewrite respond_network_path, Hfetch by done.
  destruct items as [|item items]; [done|].
  rewrite summarize_news_run, Hchat, save_to_notion_steps. reflexivity.
Qed.

Lemma respond_archives_then_replies_witness :
  ∃ items,
    (respond Examples.archive_down_world (lit "AI") []).1
    = Ok (append_sources items
            (response_head (lit "AI") (lit "three line summary")))
    ∧ length items = 2.
Proof.
  pose (r := fetch_google_news Examples.archive_down_world (lit "AI")
               ([] ++ [EvRender READING])).
  assert (Hf : r = (Ok (match r.1 with Ok l => l | Raise _ => [] end), r.2))
    by (vm_compute; reflexivity).
  assert (Hne : match r.1 with Ok l => l | Raise _ => [] end ≠ []).
  { intros Hnil. vm_compute in Hnil. discriminate Hnil. }
  assert (Hng : lit "AI" ∉ GREETINGS).
  { intros Hin. apply (bool_decide_pack _) in Hin. vm_compute in Hin.
    exact Hin. }
  destruct (respond_archives_then_replies Examples.archive_down_world
              (lit "AI") [] _ _ (lit "three line summary") Hng Hf Hne eq_refl)
    as (date & line & Hrun).
  eexists. rewrite Hrun. split; [reflexivity|]. vm_compute. reflexivity.
Defined.

Lemma append_sources_acc (items : list NewsItem) :
  ∀ full_response,
    append_sources items full_response
    = full_response ++ concat (List.map source_line items).
Proof.
  induction items as [|item rest IH]; intros acc.
  - cbn [append_sources List.map concat]. by rewrite app_nil_r.
  - cbn [append_sources List.map concat]. rewrite IH.
    unfold source_line. by rewrite <- !app_assoc.
Qed.

(** X13: the reply of a successful turn is the heading with the summary,
    followed by one source line per item in feed order; the heading is a
    prefix of the reply. *)
Theorem append_sources_lists_items
    (items : list NewsItem) (prompt summary : pystr) :
  append_sources items (response_head prompt summary)
  = response_head prompt summary ++ concat (List.map source_line items)
  ∧ response_head prompt summary
    `prefix_of` append_sources items (response_head prompt summary).
Proof.
  rewrite append_sources_acc. split; [done|]. by eexists.
Qed.

(** ** Script runs and the session store *)

Lemma messages_of_insert_messages (ss : gmap string SVal) (ms : list ChatMessage) :
  messages_of (<["messages" := VMessages ms]> ss) = ms.
Proof. unfold messages_of. by rewrite lookup_insert_eq. Qed.

Lemma messages_of_insert_started (ss : gmap string SVal) (v : SVal) :
  messages_of (<["scheduler_started" := v]> ss) = messages_of ss.
Proof. unfold messages_of. by rewrite lookup_insert_ne. Qed.

Lemma messages_of_initialised (ss : gmap string SVal) :
  messages_of (match ss !! "messages" with
               | None => <["messages" := VMessages []]> ss
               | Some _ => ss
               end) = messages_of ss.
Proof.
  destruct (ss !! "messages") as [v|] eqn:Hm; [done|].
  rewrite messages_of_insert_messages. unfold messages_of. by rewrite Hm.
Qed.

Lemma started_initialised (ss : gmap string SVal) :
  is_Some (ss !! "scheduler_started") →
  is_Some (match ss !! "messages" with
           | None => <["messages" := VMessages []]> ss
           | Some _ => ss
           end !! "scheduler_started").
Proof.
  intros Hs. destruct (ss !! "messages"); [done|].
  by rewrite lookup_insert_ne.
Qed.

(** What a run of the configured script leaves in the store of its
    session. *)
Lemma script_run_store
    (w : World) (sid : nat) (chat_input : option pystr) (p : Process) :
  configured w →
  ∃ ss',
    session_state (script_run w sid chat_input p).2
    = <[sid := ss']> (session_state p)
    ∧ is_Some (ss' !! "scheduler_started")
    ∧ match chat_input with
      | Some prompt =>
        if truthy prompt then
          ∃ t4,
            messages_of ss'
            = history p sid
              ++ {| role := lit "user"; message := prompt |}
              :: match (respond w prompt t4).1 with
                 | Ok full => [ {| role := lit "assistant"; message := full |} ]
                 | Raise _ => []
                 end
            ∧ (script_run w sid chat_input p).1
              = match (respond w prompt t4).1 with
                | Ok _ => Ok tt
                | Raise e => Raise e
                end
        else messages_of ss' = history p sid
             ∧ (script_run w sid chat_input p).1 = Ok tt
      | None => messages_of ss' = history p sid
                ∧ (script_run w sid chat_input p).1 = Ok tt
      end.
Proof.
  intros [Hkey Hnotion]. unfold script_run, history.
  rewrite Hkey, Hnotion.
  set (ss0 := default ∅ (session_state p !! sid)).
  set (ss1t := match ss0 !! "scheduler_started" with
               | Some _ => (ss0, trace p)
               | None => (<["scheduler_started":=VBool true]> ss0,
                          trace p ++ [EvThreadStart])
               end).
  assert (Hss1 : is_Some (ss1t.1 !! "scheduler_started")
                 ∧ messages_of ss1t.1 = messages_of ss0).
  { unfold ss1t. destruct (ss0 !! "scheduler_started") as [v|] eqn:Hs.
    - cbn [fst]. by rewrite Hs.
    - cbn [fst]. rewrite lookup_insert_eq, messages_of_insert_started. eauto. }
  destruct ss1t as [ss1 t1]. cbn [fst] in Hss1. destruct Hss1 as [Hstarted Hmsgs].
  cbv zeta.
  set (ss2 := match ss1 !! "messages" with
              | Some _ => ss1
              | None => <["messages":=VMessages []]> ss1
              end).
  assert (Hstarted2 : is_Some (ss2 !! "scheduler_started"))
    by (by apply started_initialised).
  assert (Hmsgs2 : messages_of ss2 = messages_of ss0)
    by (unfold ss2; by rewrite messages_of_initialised).
  destruct chat_input as [prompt|]; [destruct (truthy prompt)|].
  - match goal with
    | |- context [respond w prompt ?t] =>
      destruct (respond w prompt t) as [[full|e] t5] eqn:Hr
    end.
    + eexists. split; [reflexivity|]. split.
      { by rewrite !lookup_insert_ne. }
      eexists. rewrite Hr. cbn [fst].
      rewrite !messages_of_insert_messages, Hmsgs2, <- app_assoc. done.
    + eexists. split; [reflexivity|]. split.
      { by rewrite !lookup_insert_ne. }
      eexists. rewrite Hr. cbn [fst].
      rewrite !messages_of_insert_messages, Hmsgs2. done.
  - eexists. split; [reflexivity|]. done.
  - eexists. split; [reflexivity|]. done.
Qed.

Lemma script_run_missing_setting
    (w : World) (sid : nat) (chat_input : option pystr) (p : Process) :
  unset (openai_api_key (config w)) = true
  ∨ unset (notion_api_key (config w)) || unset (notion_db_id (config w)) = true →
  ∃ message,
    script_run w sid chat_input p
    = (Ok tt, {| trace := trace p ++ [EvRender message];
                 session_state := session_state p |}).
Proof.
  intros Hmissing. unfold script_run.
  destruct (unset (openai_api_key (config w))) eqn:Hkey; [by eexists|].
  destruct Hmissing as [|Hnotion]; [done|]. rewrite Hnotion. by eexists.
Qed.

(** X14: when a required setting is missing or empty, a run of the script
    shows one error and stops there: it returns normally, makes no network
    call, starts no thread and leaves the session store as it was, even if
    the user typed a query. *)
Theorem script_run_unconfigured_halts
    (w : World) (sid : nat) (chat_input : option pystr) (p : Process) :
  unset (openai_api_key (config w)) = true
  ∨ unset (notion_api_key (config w)) || unset (notion_db_id (config w)) = true →
  ∃ message,
    script_run w sid chat_input p
    = (Ok tt, {| trace := trace p ++ [EvRender message];
                 session_state := session_state p |})
    ∧ network_calls (trace p ++ [EvRender message]) = network_calls (trace p)
    ∧ threads_started (trace p ++ [EvRender message])
      = threads_started (trace p).
Proof.
  intros Hmissing.
  destruct (script_run_missing_setting w sid chat_input p Hmissing)
    as [message Hrun].
  exists message. split; [exact Hrun|].
  split; apply count_app_none; by repeat constructor.
Qed.

Lemma script_run_unconfigured_halts_witness :
  ∃ message,
    script_run Examples.unconfigured_world 0 (Some (lit "AI")) initial_process
    = (Ok tt, {| trace := trace initial_process ++ [EvRender message];
                 session_state := session_state initial_process |})
    ∧ network_calls (trace initial_process ++ [EvRender message])
      = network_calls (trace initial_process)
    ∧ threads_started (trace initial_process ++ [EvRender message])
      = threads_started (trace initial_process).
Proof.
  apply (script_run_unconfigured_halts Examples.unconfigured_world 0
           (Some (lit "AI")) initial_process).
  left. reflexivity.
Defined.

(** X15: the chat history of a session is append-only.  A turn appends the
    user's message and then the assistant's reply; a turn whose pipeline
    raises leaves the user's message in the history without a reply, and
    the script run ends with that exception. *)
Theorem script_run_appends_history
    (w : World) (sid : nat) (prompt : pystr) (p : Process) :
  configured w →
  truthy prompt = true →
  ∃ t4,
    history (script_run w sid (Some prompt) p).2 sid
    = history p sid
      ++ {| role := lit "user"; message := prompt |}
      :: match (respond w prompt t4).1 with
         | Ok full => [ {| role := lit "assistant"; message := full |} ]
         | Raise _ => []
         end
    ∧ (script_run w sid (Some prompt) p).1
      = match (respond w prompt t4).1 with
        | Ok _ => Ok tt
        | Raise e => Raise e
        end.
Proof.
  intros Hcfg Htruthy.
  destruct (script_run_store w sid (Some prompt) p Hcfg)
    as (ss' & Hstore & _ & Hturn).
  rewrite Htruthy in Hturn. destruct Hturn as (t4 & Hmsgs & Hres).
  exists t4. split; [|exact Hres].
  unfold history at 1. rewrite Hstore, lookup_insert_eq. exact Hmsgs.
Qed.

Lemma script_run_appends_history_witness :
  ∃ t4,
    history (script_run Examples.model_down_world 0 (Some (lit "AI"))
               initial_process).2 0
    = history initial_process 0
      ++ {| role := lit "user"; message := lit "AI" |}
      :: match (respond Examples.model_down_world (lit "AI") t4).1 with
         | Ok full => [ {| role := lit "assistant"; message := full |} ]
         | Raise _ => []
         end
    ∧ (script_run Examples.model_down_world 0 (Some (lit "AI"))
         initial_process).1
      = match (respond Examples.model_down_world (lit "AI") t4).1 with
        | Ok _ => Ok tt
        | Raise e => Raise e
        end.
Proof.
  apply (script_run_appends_history Examples.model_down_world 0 (lit "AI")
           initial_process).
  - split; reflexivity.
  - reflexivity.
Defined.

(** X17: a run without input (nothing submitted, or the empty string) makes
    no network call, returns normally and leaves the session's chat history
    as it was. *)
Theorem script_run_without_input
    (w : World) (sid : nat) (chat_input : option pystr) (p : Process) :
  chat_input = None ∨ chat_input = Some [] →
  (script_run w sid chat_input p).1 = Ok tt
  ∧ network_calls (trace (script_run w sid chat_input p).2)
    = network_calls (trace p)
  ∧ history (script_run w sid chat_input p).2 sid = history p sid.
Proof.
  intros Hinput.
  assert (Hlocal : network_calls (trace (script_run w sid chat_input p).2)
                   = network_calls (trace p)).
  { unfold script_run, network_calls.
    destruct (unset _); [cbn; apply count_app_none; by repeat constructor|].
    destruct (_ || _); [cbn; apply count_app_none; by repeat constructor|].
    destruct (default ∅ (session_state p !! sid) !! "scheduler_started");
      destruct Hinput as [->| ->]; cbn [truthy trace snd];
      rewrite <- ?app_assoc; apply count_app_none;
      rewrite ?Forall_app; repeat split;
      auto using render_events_local, page_local; by repeat constructor. }
  destruct (unset (openai_api_key (config w))) eqn:Hkey;
    [|destruct (unset (notion_api_key (config w))
                || unset (notion_db_id (config w))) eqn:Hnotion].
  - destruct (script_run_missing_setting w sid chat_input p)
      as (msg & Hrun); [by left|]. rewrite Hrun in *. done.
  - destruct (script_run_missing_setting w sid chat_input p)
      as (msg & Hrun); [by right|]. rewrite Hrun in *. done.
  - destruct (script_run_store w sid chat_input p (conj Hkey Hnotion))
      as (ss' & Hstore & _ & Hturn).
    assert (Hidle : messages_of ss' = history p sid
                    ∧ (script_run w sid chat_input p).1 = Ok tt)
      by (by destruct Hinput as [->| ->]).
    destruct Hidle as [Hmsgs Hres]. split; [exact Hres|].
    split; [exact Hlocal|].
    unfold history at 1. by rewrite Hstore, lookup_insert_eq.
Qed.

Lemma script_run_without_input_witness :
  (script_run Examples.online_world 0 (Some []) initial_process).1 = Ok tt
  ∧ network_calls
      (trace (script_run Examples.online_world 0 (Some []) initial_process).2)
    = network_calls (trace initial_process)
  ∧ history (script_run Examples.online_world 0 (Some []) initial_process).2 0
    = history initial_process 0.
Proof.
  apply (script_run_without_input Examples.online_world 0 (Some [])
           initial_process).
  right. reflexivity.
Defined.

Lemma same_session_starts_no_second_scheduler_witness :
  threads_started
    (trace (script_run Examples.online_world 0 (Some (lit "안녕"))
              (script_run Examples.online_world 0 None initial_process).2).2)
  = threads_started
      (trace (script_run Examples.online_world 0 None initial_process).2).
Proof.
  apply (same_session_starts_no_second_scheduler Examples.online_world 0
           None (Some (lit "안녕")) initial_process).
  - reflexivity.
  - reflexivity.
Defined.

(** The invariant behind the thread count: every session in the store has
    started its scheduler, and there are as many threads as sessions. *)
Lemma script_run_keeps_thread_count
    (w : World) (sid : nat) (chat_input : option pystr) (p : Process) :
  configured w →
  threads_started (trace p) = size (session_state p)
  ∧ (∀ s ss, session_state p !! s = Some ss →
             is_Some (ss !! "scheduler_started")) →
  let p' := (script_run w sid chat_input p).2 in
  threads_started (trace p') = size (session_state p')
  ∧ (∀ s ss, session_state p' !! s = Some ss →
             is_Some (ss !! "scheduler_started")).
Proof.
  intros Hcfg [Hcount Hall] p'.
  destruct (script_run_store w sid chat_input p Hcfg)
    as (ss' & Hstore & Hstarted & _).
  fold p' in Hstore. split.
  - unfold p'. destruct Hcfg as [Hkey Hnotion].
    rewrite script_run_threads by done. fold p'. rewrite Hstore.
    destruct (session_state p !! sid) as [ss|] eqn:Hsid.
    + cbn [default from_option id].
      destruct (Hall sid ss Hsid) as [v ->].
      rewrite map_size_insert_Some by eauto. lia.
    + cbn [default from_option id]. rewrite lookup_empty.
      rewrite map_size_insert_None by done. lia.
  - intros s ss. rewrite Hstore.
    destruct (decide (s = sid)) as [->|Hne].
    + rewrite lookup_insert_eq. by intros [= <-].
    + rewrite lookup_insert_ne by done. apply Hall.
Qed.

(** X19: with the settings in place, after any sequence of script runs the
    process has started exactly as many scheduler threads as there are
    sessions in the store: one per session that ever loaded the page, none
    for a rerun. *)
Theorem threads_started_counts_sessions
    (w : World) (runs : list (nat * option pystr)) :
  configured w →
  let p := script_runs w runs initial_process in
  threads_started (trace p) = size (session_state p).
Proof.
  intros Hcfg.
  assert (Hinv : ∀ p0,
            threads_started (trace p0) = size (session_state p0)
            ∧ (∀ s ss, session_state p0 !! s = Some ss →
                       is_Some (ss !! "scheduler_started")) →
            threads_started (trace (script_runs w runs p0))
            = size (session_state (script_runs w runs p0))).
  { induction runs as [|[sid input] rest IH]; intros p0 Hp0.
    - apply Hp0.
    - cbn [script_runs]. apply IH.
      by apply script_run_keeps_thread_count. }
  apply Hinv. split; [reflexivity|].
  intros s ss Hs. cbn in Hs. by rewrite lookup_empty in Hs.
Qed.

Lemma threads_started_counts_sessions_witness :
  threads_started
    (trace (script_runs Examples.online_world
              [(0, None); (1, None); (0, Some (lit "안녕")); (2, None)]
              initial_process))
  = size (session_state
            (script_runs Examples.online_world
               [(0, None); (1, None); (0, Some (lit "안녕")); (2, None)]
               initial_process)).
Proof.
  apply (threads_started_counts_sessions Examples.online_world
           [(0, None); (1, None); (0, Some (lit "안녕")); (2, None)]).
  split; reflexivity.
Defined.
